(** * SampleSource: shallow embedding of [timesync/samplesource.c]

    The three entry points of the C file, [SampleSourceOpen],
    [SampleSourceRead] and [SampleSourceClose], are embedded as functions
    over an explicit world (open file handles, live heap blocks, the
    diagnostic stream).  Behaviour that ISO C leaves undefined (a store past
    the end of an array, [strtok] on a null pointer, [free] of a block that
    is not live) is the outcome [Undefined]. *)

From Stdlib Require Import ZArith Lia String Ascii List Bool Floats.
From stdpp Require Import base list.

Open Scope string_scope.
Open Scope Z_scope.

(** ** Floating point

    [double] is the primitive binary64 type.  A C [float] (binary32) is kept
    as the binary64 number with the same value; the conversion
    [(float)x] rounds to the nearest binary32 number, ties to even. *)

Definition float32_of_double (x : float) : float :=
  match Prim2SF x with
  | S754_finite s m e =>
      SF2Prim (binary_normalize 24 128 (cond_Zopp s (Zpos m)) e s)
  | _ => x
  end.

(** [x > 0], with the integer constant converted to [double]. *)
Definition gt_zero (x : float) : bool := PrimFloat.ltb 0%float x.

(** ** C strings *)

Definition NUL : ascii := Ascii.zero.
Definition LF : ascii := "010"%char.

(** The characters of a buffer up to its terminator. *)
Fixpoint c_str (s : string) : string :=
  match s with
  | EmptyString => EmptyString
  | String c r => if Ascii.eqb c NUL then EmptyString else String c (c_str r)
  end.

(** [s[i]]; the terminator when [i] is the length of [s]. *)
Definition char_at (s : string) (i : nat) : ascii :=
  match String.get i s with
  | Some c => c
  | None => NUL
  end.

(** [s + n], for [n] at most the length of [s]. *)
Fixpoint advance (n : nat) (s : string) : string :=
  match n, s with
  | O, _ => s
  | S n', String _ r => advance n' r
  | S _, EmptyString => EmptyString
  end.

(** [strncmp(s, lit, strlen(lit)) == 0]. *)
Fixpoint starts_with (lit s : string) : bool :=
  match lit with
  | EmptyString => true
  | String a lit' =>
      match s with
      | String b s' => Ascii.eqb a b && starts_with lit' s'
      | EmptyString => false
      end
  end.

(** The fields of [s] between occurrences of [d], empty ones included. *)
Fixpoint fields (d : ascii) (s : string) : list string :=
  match s with
  | EmptyString => [EmptyString]
  | String c r =>
      if Ascii.eqb c d then EmptyString :: fields d r
      else match fields d r with
           | t :: ts => String c t :: ts
           | [] => [String c EmptyString]
           end
  end.

Definition nonempty (s : string) : bool :=
  match s with EmptyString => false | _ => true end.

(** The successive results of [strtok(s, "\n")], [strtok(NULL, "\n")], ...
    up to the first [NULL]: the maximal non-empty runs without a newline. *)
Definition strtok_all (s : string) : list string :=
  List.filter nonempty (fields LF s).

Definition MAX_FIELDS : nat := 32.

(** The loop of line 141: tokens beyond [MAX_FIELDS] are dropped. *)
Definition commentLines (infoComment : string) : list string :=
  firstn MAX_FIELDS (strtok_all infoComment).

(** ** Outcomes *)

Inductive outcome (A : Type) : Type :=
  | Done (a : A)
  | Undefined.
Arguments Done {A} a.
Arguments Undefined {A}.

Definition bind {A B} (m : outcome A) (k : A -> outcome B) : outcome B :=
  match m with
  | Done a => k a
  | Undefined => Undefined
  end.

Notation "x <- m ;; k" := (bind m (fun x => k))
  (at level 100, m at next level, right associativity).

(** [a[i] = x] on an array of [length a] elements. *)
Definition store {A} (a : list A) (i : nat) (x : A) : outcome (list A) :=
  if (i <? length a)%nat then Done (<[i := x]> a) else Undefined.

(** [a[i]] as an rvalue. *)
Definition load {A} (a : list A) (i : nat) : outcome A :=
  match a !! i with
  | Some x => Done x
  | None => Undefined
  end.

(** ** Diagnostic stream *)

Inductive msg : Type :=
  | MsgLoading (filename : string)
  | ErrCannotOpen
  | ErrWavFormat
  | ErrBytesPerChannel (n : Z)
  | ErrChannels (n : Z) (max : Z)
  | ErrFrequency (n : Z)
  | MsgTime (t : float)
  | MsgScale (header : Z) (val : float) (chan : nat) (sc : float)
  | WarnTime
  | WarnScale (header : Z)
  | MsgAllocating (len : Z)
  | ErrAllocating (len : Z)
  | ErrReading (len : Z).

(** ** Header lines *)

Inductive header : Type :=
  | HTime (rest : string)
  | HScale (chan : nat) (rest : string)
  | HOther.

Definition is_digit_1_9 (c : ascii) : bool :=
  ((49 <=? nat_of_ascii c) && (nat_of_ascii c <=? 57))%nat.

(** The two tests of lines 149 and 155. *)
Definition classify (line : string) : header :=
  if starts_with "Time:" line then HTime (advance 5 line)
  else if starts_with "Scale-" line
          && is_digit_1_9 (char_at line 6)
          && Ascii.eqb (char_at line 7) ":"%char
       then HScale (nat_of_ascii (char_at line 6) - 49) (advance 8 line)
       else HOther.


(** ** Pointers, files and the heap *)

Record pointer : Type := { base : option nat; ofs : Z }.

Definition NULL : pointer := {| base := None; ofs := 0 |}.

Definition is_null (p : pointer) : bool :=
  match base p with
  | None => ofs p =? 0
  | Some _ => false
  end.

Definition ptr_add (p : pointer) (n : Z) : pointer :=
  {| base := base p; ofs := ofs p + n |}.

Record world : Type := {
  open_files : list nat;        (* FILE handles that are open *)
  heap : list (nat * Z);        (* live blocks, with their sizes *)
  stderr : list msg
}.

Definition fresh (used : list nat) : nat := S (max_list used).

Definition fprintf (m : msg) (w : world) : world :=
  {| open_files := open_files w; heap := heap w; stderr := stderr w ++ [m] |}.

Definition fopen (w : world) : nat * world :=
  let fp := fresh (open_files w) in
  (fp, {| open_files := fp :: open_files w; heap := heap w; stderr := stderr w |}).

Definition fclose (fp : nat) (w : world) : world :=
  {| open_files := List.filter (fun f => negb (f =? fp)%nat) (open_files w);
     heap := heap w; stderr := stderr w |}.

Definition live (b : nat) (w : world) : bool :=
  existsb (fun blk => (fst blk =? b)%nat) (heap w).

(** A successful [malloc(size)] (also the one inside [strdup]). *)
Definition malloc (size : Z) (w : world) : pointer * world :=
  let b := fresh (map fst (heap w)) in
  ({| base := Some b; ofs := 0 |},
   {| open_files := open_files w; heap := (b, size) :: heap w; stderr := stderr w |}).

Definition free (p : pointer) (w : world) : outcome world :=
  match base p with
  | None => if ofs p =? 0 then Done w else Undefined
  | Some b =>
      if (ofs p =? 0) && live b w
      then Done {| open_files := open_files w;
                   heap := List.filter (fun blk => negb (fst blk =? b)%nat) (heap w);
                   stderr := stderr w |}
      else Undefined
  end.

(** ** The data model *)

Module Wav.

(** The format fields of [WavInfo] that [SampleSourceOpen] reads. *)
Record Info : Type := {
  bytesPerChannel : Z;
  chans : Z;
  freq : Z;
  offset : Z;
  numSamples : Z
}.

End Wav.

Record sample_source_t : Type := {
  scale : list float;
  infoArtist : string;
  infoName : string;
  infoComment : string;
  infoDate : string;
  dataStartOffset : Z;
  numChannels : Z;
  numSamples : Z;
  sampleRate : Z;
  startTime : float;
  buffer : pointer;
  bufferLength : Z
}.

Definition set_scale (sc : list float) (s : sample_source_t) : sample_source_t :=
  {| scale := sc;
     infoArtist := infoArtist s; infoName := infoName s;
     infoComment := infoComment s; infoDate := infoDate s;
     dataStartOffset := dataStartOffset s; numChannels := numChannels s;
     numSamples := numSamples s; sampleRate := sampleRate s;
     startTime := startTime s;
     buffer := buffer s; bufferLength := bufferLength s |}.

Definition set_info (artist name comment date : string) (s : sample_source_t)
  : sample_source_t :=
  {| scale := scale s;
     infoArtist := artist; infoName := name;
     infoComment := comment; infoDate := date;
     dataStartOffset := dataStartOffset s; numChannels := numChannels s;
     numSamples := numSamples s; sampleRate := sampleRate s;
     startTime := startTime s;
     buffer := buffer s; bufferLength := bufferLength s |}.

(** Lines 174 to 178. *)
Definition set_header (wavInfo : Wav.Info) (t : float) (s : sample_source_t)
  : sample_source_t :=
  {| scale := scale s;
     infoArtist := infoArtist s; infoName := infoName s;
     infoComment := infoComment s; infoDate := infoDate s;
     dataStartOffset := Wav.offset wavInfo; numChannels := Wav.chans wavInfo;
     numSamples := Wav.numSamples wavInfo; sampleRate := Wav.freq wavInfo;
     startTime := t;
     buffer := buffer s; bufferLength := bufferLength s |}.

Definition set_buffer (p : pointer) (len : Z) (s : sample_source_t)
  : sample_source_t :=
  {| scale := scale s;
     infoArtist := infoArtist s; infoName := infoName s;
     infoComment := infoComment s; infoDate := infoDate s;
     dataStartOffset := dataStartOffset s; numChannels := numChannels s;
     numSamples := numSamples s; sampleRate := sampleRate s;
     startTime := startTime s;
     buffer := p; bufferLength := len |}.

(** What the file system, [WavRead] and the allocator answer during one
    call of [SampleSourceOpen]. *)
Record file_env : Type := {
  fopen_ok : bool;
  WavRead_ok : bool;
  WavRead_info : Wav.Info;
  WavRead_artist : string;      (* left in the four text buffers *)
  WavRead_name : string;
  WavRead_comment : string;
  WavRead_date : string;
  strdup_ok : bool;
  ftell_length : Z;
  malloc_ok : bool;
  fread_count : Z
}.

Inductive exit_code : Type :=
  | EXIT_OK | EXIT_NOINPUT | EXIT_DATAERR | EXIT_SOFTWARE | EXIT_IOERR.

(** ** A decimal [atof]

    [TimeParse] and [atof] are parameters of the development.  To run it on
    concrete comments they are instantiated with this reader of decimal
    numerals: optional white space, an optional sign, digits and an optional
    fraction, rounded to the nearest binary64 number; [0] when no digit is
    found, as [atof] answers when no conversion can be performed. *)

Definition is_space (c : ascii) : bool :=
  let n := nat_of_ascii c in ((n =? 32) || ((9 <=? n) && (n <=? 13)))%nat.

Fixpoint skip_space (s : string) : string :=
  match s with
  | String c r => if is_space c then skip_space r else s
  | EmptyString => s
  end.

(** Digits of [s] appended to [acc]; the number of digits read; the rest. *)
Fixpoint read_digits (s : string) (acc : Z) (n : nat) : Z * nat * string :=
  match s with
  | String c r =>
      let d := nat_of_ascii c in
      if ((48 <=? d) && (d <=? 57))%nat
      then read_digits r (10 * acc + (Z.of_nat d - 48)) (S n)
      else (acc, n, s)
  | EmptyString => (acc, n, s)
  end.

(** [num / den], for [0 <= num] and [0 < den], rounded to binary64. *)
Definition round_ratio (neg : bool) (num den : Z) : spec_float :=
  if num =? 0 then S754_zero neg
  else
    let sh := Z.max 0 (60 + Z.log2 den - Z.log2 num) in
    let q := (num * 2 ^ sh) / den in
    let sticky := if (num * 2 ^ sh) mod den =? 0 then 0 else 1 in
    binary_normalize 53 1024 (cond_Zopp neg (2 * q + sticky)) (- sh - 1) neg.

Definition atof_decimal (s : string) : float :=
  let s := skip_space s in
  let '(neg, s) :=
    match s with
    | String "-" r => (true, r)
    | String "+" r => (false, r)
    | _ => (false, s)
    end in
  let '(ip, _, s) := read_digits s 0 0 in
  let '(num, k) :=
    match s with
    | String "." r => let '(v, k, _) := read_digits r ip 0 in (v, k)
    | _ => (ip, O)
    end in
  SF2Prim (round_ratio neg num (10 ^ Z.of_nat k)).

(** Whether [c] occurs in [s]. *)
Fixpoint has_char (c : ascii) (s : string) : bool :=
  match s with
  | EmptyString => false
  | String a r => Ascii.eqb a c || has_char c r
  end.

(** ** Sample inputs *)

Definition empty_world : world :=
  {| open_files := []; heap := []; stderr := [] |}.

(** A source that has never been opened, with [n] scale slots. *)
Definition blank_source (n : nat) : sample_source_t :=
  {| scale := replicate n 0%float;
     infoArtist := ""; infoName := ""; infoComment := ""; infoDate := "";
     dataStartOffset := 0; numChannels := 0; numSamples := 0; sampleRate := 0;
     startTime := 0%float;
     buffer := NULL; bufferLength := 0 |}.

(** A 16-bit recording of 1000 frames at 100 Hz behind a 44-byte header. *)
Definition recording (nchans : Z) (comment : string) (can_allocate : bool)
  : file_env :=
  {| fopen_ok := true;
     WavRead_ok := true;
     WavRead_info :=
       {| Wav.bytesPerChannel := 2; Wav.chans := nchans; Wav.freq := 100;
          Wav.offset := 44; Wav.numSamples := 1000 |};
     WavRead_artist := ""; WavRead_name := "";
     WavRead_comment := comment; WavRead_date := "";
     strdup_ok := true;
     ftell_length := 44 + 2000 * nchans;
     malloc_ok := can_allocate;
     fread_count := 44 + 2000 * nchans |}.

(** The recording of [recording], of which [fread] returns the 44 bytes of
    the header only. *)
Definition recording_cut_short (nchans : Z) (comment : string) : file_env :=
  {| fopen_ok := true;
     WavRead_ok := true;
     WavRead_info :=
       {| Wav.bytesPerChannel := 2; Wav.chans := nchans; Wav.freq := 100;
          Wav.offset := 44; Wav.numSamples := 1000 |};
     WavRead_artist := ""; WavRead_name := "";
     WavRead_comment := comment; WavRead_date := "";
     strdup_ok := true;
     ftell_length := 44 + 2000 * nchans;
     malloc_ok := true;
     fread_count := 44 |}.

(** The same file declared with [bytes] bytes per channel. *)
Definition recording_bytes (bytes : Z) : file_env :=
  {| fopen_ok := true;
     WavRead_ok := true;
     WavRead_info :=
       {| Wav.bytesPerChannel := bytes; Wav.chans := 3; Wav.freq := 100;
          Wav.offset := 44; Wav.numSamples := 1000 |};
     WavRead_artist := ""; WavRead_name := "";
     WavRead_comment := ""; WavRead_date := "";
     strdup_ok := true;
     ftell_length := 44 + 1000 * 3 * bytes;
     malloc_ok := true;
     fread_count := 44 + 1000 * 3 * bytes |}.

(** An open source: three channels, data in block [7]. *)
Definition loaded_source : sample_source_t :=
  {| scale := replicate 16 1%float;
     infoArtist := ""; infoName := ""; infoComment := ""; infoDate := "";
     dataStartOffset := 44; numChannels := 3; numSamples := 1000;
     sampleRate := 100;
     startTime := 0%float;
     buffer := {| base := Some 7%nat; ofs := 0 |}; bufferLength := 6044 |}.

Definition loaded_world : world :=
  {| open_files := []; heap := [(7%nat, 6044)]; stderr := [] |}.

Definition block_of_three_headers : string :=
  "Time: 2020-01-01T00:00:00Z" ++ String LF
    ("Scale-1: 16384" ++ String LF ("Scale-2: 8192" ++ String LF "")).

(** ** Parameters of the translation unit *)

Section SampleSource.

(** [SAMPLE_SOURCE_CHANNELS_MAX] of [samplesource.h]. *)
Variable CHANNELS_MAX : nat.

(** The width of [size_t]. *)
Variable size_bits : Z.

(** [TimeParse] of [timestamp.h] and [atof] of the C library. *)
Variable TimeParse : string -> float.
Variable atof : string -> float.

(** Conversion to [size_t]. *)
Definition to_size_t (z : Z) : Z := z mod 2 ^ size_bits.

(** ** Parsing the headers (lines 144 to 170) *)

Record locals : Type := {
  parsedTime : bool;
  parsedScale : list bool;
  local_startTime : float
}.

Definition parse_state : Type := sample_source_t * locals * world.

(** The body of the loop of line 147. *)
Definition parse_line (line : string) (st : parse_state) : outcome parse_state :=
  let '(s, l, w) := st in
  match classify line with
  | HTime rest =>
      let t := TimeParse rest in
      let w := fprintf (MsgTime t) w in
      Done (s,
            {| parsedTime := if gt_zero t then true else parsedTime l;
               parsedScale := parsedScale l;
               local_startTime := t |},
            w)
  | HScale chan rest =>
      let val := atof rest in
      let x := float32_of_double (val / 32768)%float in
      sc <- store (scale s) chan x ;;
      let s := set_scale sc s in
      let w := fprintf (MsgScale (Z.of_nat chan + 1) val chan x) w in
      if gt_zero x
      then ps <- store (parsedScale l) chan true ;;
           Done (s,
                 {| parsedTime := parsedTime l;
                    parsedScale := ps;
                    local_startTime := local_startTime l |},
                 w)
      else Done (s, l, w)
  | HOther => Done st
  end.

Fixpoint parse_lines (lines : list string) (st : parse_state) : outcome parse_state :=
  match lines with
  | [] => Done st
  | line :: rest => st' <- parse_line line st ;; parse_lines rest st'
  end.

(** Lines 144 to 163, on the tokens of the duplicated comment. *)
Definition parse_headers (lines : list string) (s : sample_source_t) (w : world)
  : outcome parse_state :=
  parse_lines lines
    (s,
     {| parsedTime := false;
        parsedScale := replicate CHANNELS_MAX false;
        local_startTime := 0%float |},
     w).

(** The loop of line 167, for [i] in [ix]. *)
Fixpoint check_scales (ix : list nat) (l : locals) (w : world) : outcome world :=
  match ix with
  | [] => Done w
  | i :: rest =>
      b <- load (parsedScale l) i ;;
      check_scales rest l
        (if b then w else fprintf (WarnScale (Z.of_nat i + 1)) w)
  end.

(** Lines 166 to 170. *)
Definition check_headers (l : locals) (w : world) : outcome world :=
  check_scales (seq 0 3) l
    (if parsedTime l then w else fprintf WarnTime w).

(** ** [SampleSourceOpen] (lines 102 to 207, without [USE_MMAP]) *)

(** Lines 181 to 206: [fp] is the open file, [infoComment] the duplicate of
    the comment text. *)
Definition read_data (env : file_env) (fp : nat) (infoComment : pointer)
    (s : sample_source_t) (w : world)
  : outcome (exit_code * sample_source_t * world) :=
  let length := ftell_length env in
  let w := fprintf (MsgAllocating length) w in
  if negb (malloc_ok env)
  then Done (EXIT_SOFTWARE, s, fclose fp (fprintf (ErrAllocating length) w))
  else
  let '(buf, w) := malloc (to_size_t length) w in
  if negb (fread_count env =? to_size_t length)
  then w <- free buf (fprintf (ErrReading length) w) ;;
       Done (EXIT_IOERR, s, fclose fp w)
  else
  let s := set_buffer buf length s in
  let w := fclose fp w in
  w <- free infoComment w ;;
  Done (EXIT_OK, s, w).

Definition SampleSourceOpen (env : file_env) (s : sample_source_t)
    (filename : string) (w : world)
  : outcome (exit_code * sample_source_t * world) :=
  let w := fprintf (MsgLoading filename) w in
  if negb (fopen_ok env)
  then Done (EXIT_NOINPUT, s, fprintf ErrCannotOpen w)
  else
  let '(fp, w) := fopen w in
  (* default scale, cleared text buffers *)
  let s := set_scale (replicate CHANNELS_MAX 1%float) s in
  let s := set_info "" "" "" "" s in
  (* WavRead fills wavInfo and the four text buffers *)
  let wavInfo := WavRead_info env in
  let s := set_info (WavRead_artist env) (WavRead_name env)
                    (WavRead_comment env) (WavRead_date env) s in
  if negb (WavRead_ok env)
  then Done (EXIT_DATAERR, s, fclose fp (fprintf ErrWavFormat w))
  else if negb (Wav.bytesPerChannel wavInfo =? 2)
  then Done (EXIT_DATAERR, s,
             fclose fp (fprintf (ErrBytesPerChannel (Wav.bytesPerChannel wavInfo)) w))
  else if (Wav.chans wavInfo <? 1) || (Z.of_nat CHANNELS_MAX <? Wav.chans wavInfo)
  then Done (EXIT_DATAERR, s,
             fclose fp (fprintf (ErrChannels (Wav.chans wavInfo) (Z.of_nat CHANNELS_MAX)) w))
  else if Wav.freq wavInfo <? 1
  then Done (EXIT_DATAERR, s,
             fclose fp (fprintf (ErrFrequency (Wav.freq wavInfo)) w))
  else
  (* extract metadata: strdup, then strtok until NULL *)
  let text := c_str (infoComment s) in
  if negb (strdup_ok env) then Undefined
  else
  let '(dup, w) := malloc (Z.of_nat (String.length text) + 1) w in
  st <- parse_headers (commentLines text) s w ;;
  let '(s, l, w) := st in
  w <- check_headers l w ;;
  (* copy header information, read data *)
  read_data env fp dup (set_header wavInfo (local_startTime l) s) w.

(** ** [SampleSourceRead] (lines 211 to 218)

    [span] is the object the fourth argument points to, [None] for a null
    pointer; the second component of the result is that object afterwards. *)

Definition SampleSourceRead (s : sample_source_t) (index minCount : Z)
    (span : option Z) : pointer * option Z :=
  let span' :=
    match span with
    | Some _ => Some (to_size_t (2 * to_size_t (numChannels s)))
    | None => None
    end in
  (ptr_add (ptr_add (buffer s) (dataStartOffset s))
     (to_size_t (to_size_t (2 * to_size_t index) * to_size_t (numChannels s))),
   span').

(** ** [SampleSourceClose] (lines 222 to 234, without [USE_MMAP]) *)

Definition SampleSourceClose (s : sample_source_t) (w : world)
  : outcome (sample_source_t * world) :=
  if is_null (buffer s)
  then Done (set_buffer (buffer s) 0 s, w)
  else w' <- free (buffer s) w ;;
       Done (set_buffer NULL 0 s, w').

(** ** Predicates of the statements *)

(** The source owns a buffer and its format passed the checks of open. *)
Definition open_source (s : sample_source_t) : Prop :=
  (exists b, buffer s = {| base := Some b; ofs := 0 |}) /\
  1 <= numChannels s <= Z.of_nat CHANNELS_MAX /\
  0 <= dataStartOffset s /\
  0 <= bufferLength s < 2 ^ size_bits.

(** Frame [i] is one of the [numSamples] frames and lies in the buffer. *)
Definition in_range (s : sample_source_t) (i : Z) : Prop :=
  0 <= i < numSamples s /\
  dataStartOffset s + 2 * (i + 1) * numChannels s <= bufferLength s.

(** The buffer of [s] is null or a live block of the heap of [w]. *)
Definition owns (w : world) (s : sample_source_t) : Prop :=
  buffer s = NULL \/
  exists b, buffer s = {| base := Some b; ofs := 0 |} /\ live b w = true.

(** The file opens, [WavRead] accepts it, the format passes the three checks
    of lines 129 to 131 and the comment can be duplicated. *)
Definition validated (env : file_env) : Prop :=
  fopen_ok env = true /\
  WavRead_ok env = true /\
  Wav.bytesPerChannel (WavRead_info env) = 2 /\
  1 <= Wav.chans (WavRead_info env) <= Z.of_nat CHANNELS_MAX /\
  1 <= Wav.freq (WavRead_info env) /\
  strdup_ok env = true.

(** The source and the world when line 144 is reached. *)
Definition source_at_headers (env : file_env) (s : sample_source_t)
  : sample_source_t :=
  set_info (WavRead_artist env) (WavRead_name env)
           (WavRead_comment env) (WavRead_date env)
    (set_info "" "" "" "" (set_scale (replicate CHANNELS_MAX 1%float) s)).

Definition world_at_headers (env : file_env) (filename : string) (w : world)
  : world :=
  snd (malloc (Z.of_nat (String.length (c_str (WavRead_comment env))) + 1)
         (snd (fopen (fprintf (MsgLoading filename) w)))).

(** The block that holds the duplicate of the comment text. *)
Definition comment_block (w : world) : nat := fresh (map fst (heap w)).

(** What one iteration of the header loop leaves alone. *)
Definition frame (st st' : parse_state) : Prop :=
  let '(s, l, w) := st in
  let '(s', l', w') := st' in
  s' = set_scale (scale s') s /\
  length (scale s') = length (scale s) /\
  length (parsedScale l') = length (parsedScale l) /\
  open_files w' = open_files w /\
  heap w' = heap w.

(** The warnings that lines 166 to 170 print, from the four flags read. *)
Definition warnings (t b0 b1 b2 : bool) : list msg :=
  (if t then [] else [WarnTime]) ++
  (if b0 then [] else [WarnScale 1]) ++
  (if b1 then [] else [WarnScale 2]) ++
  (if b2 then [] else [WarnScale 3]).

(** The exit codes of a load that got past the headers. *)
Definition loaded (code : exit_code) : Prop :=
  code = EXIT_OK \/ code = EXIT_SOFTWARE \/ code = EXIT_IOERR.

(** What the header loop computes, line by line: the start time is that of
    the last [Time] line, the scale of channel [i] that of the last
    [Scale-(i+1)] line, and the flags record whether some such line gave a
    positive value. *)
Definition time_step (t : float) (line : string) : float :=
  match classify line with
  | HTime rest => TimeParse rest
  | _ => t
  end.

Definition time_flag_step (b : bool) (line : string) : bool :=
  match classify line with
  | HTime rest => if gt_zero (TimeParse rest) then true else b
  | _ => b
  end.

Definition scale_step (i : nat) (v : float) (line : string) : float :=
  match classify line with
  | HScale chan rest =>
      if (chan =? i)%nat then float32_of_double (atof rest / 32768) else v
  | _ => v
  end.

Definition scale_flag_step (i : nat) (b : bool) (line : string) : bool :=
  match classify line with
  | HScale chan rest =>
      if (chan =? i)%nat && gt_zero (float32_of_double (atof rest / 32768))
      then true else b
  | _ => b
  end.

Definition last_time (lines : list string) : float :=
  fold_left time_step lines 0%float.

Definition last_scale (i : nat) (lines : list string) : float :=
  fold_left (scale_step i) lines 1%float.

(** A failed open that leaves nothing behind: no open file, no block that
    was not live before, the source as it was. *)
Definition fails_cleanly (env : file_env) (s : sample_source_t)
    (filename : string) (w : world) : Prop :=
  forall code s' w',
    SampleSourceOpen env s filename w = Done (code, s', w') ->
    code <> EXIT_OK ->
    open_files w' = open_files w /\ heap w' = heap w /\ s' = s.


(** ** Predicates of the further properties *)

(** A [Time] line whose value passes the test of line 153. *)
Definition positive_time (line : string) : bool :=
  match classify line with
  | HTime rest => gt_zero (TimeParse rest)
  | _ => false
  end.

(** A [Scale-(i+1)] line whose scale passes the test of line 161. *)
Definition positive_scale (i : nat) (line : string) : bool :=
  match classify line with
  | HScale chan rest =>
      (chan =? i)%nat && gt_zero (float32_of_double (atof rest / 32768))
  | _ => false
  end.

Definition is_warning (m : msg) : bool :=
  match m with
  | WarnTime | WarnScale _ => true
  | _ => false
  end.

(** The exit code that lines 181 to 206 decide. *)
Definition load_exit (env : file_env) : exit_code :=
  if negb (malloc_ok env) then EXIT_SOFTWARE
  else if negb (fread_count env =? to_size_t (ftell_length env)) then EXIT_IOERR
  else EXIT_OK.

(** The block that open allocates for the data. *)
Definition data_block (w : world) : nat :=
  fresh (comment_block w :: map fst (heap w)).

(** * Properties *)

(** ** The world *)

Lemma max_list_bound (l : list nat) (x : nat) :
  List.In x l -> (x <= max_list l)%nat.
Proof.
  induction l as [|y l IH]; simpl; [tauto|].
  intros [->|H]; [lia|]. specialize (IH H). lia.
Qed.

Lemma filter_fresh (l : list nat) :
  List.filter (fun f => negb (f =? fresh l)%nat) l = l.
Proof.
  assert (G : forall k, (forall x, List.In x l -> (x < k)%nat) ->
            List.filter (fun f => negb (f =? k)%nat) l = l).
  { intros k. induction l as [|y l IH]; simpl; intros H; [reflexivity|].
    destruct (Nat.eqb_spec y k) as [E|E]; simpl.
    - specialize (H y (or_introl eq_refl)). lia.
    - f_equal. apply IH. intros x Hx. apply H. now right. }
  apply G. intros x Hx. apply max_list_bound in Hx. unfold fresh. lia.
Qed.

Lemma filter_blocks_above (k : nat) (h : list (nat * Z)) :
  (forall x, List.In x (map fst h) -> (x < k)%nat) ->
  List.filter (fun blk => negb (fst blk =? k)%nat) h = h.
Proof.
  induction h as [|y h IH]; simpl; intros H; [reflexivity|].
  destruct (Nat.eqb_spec (fst y) k) as [E|E]; simpl.
  - specialize (H (fst y) (or_introl eq_refl)). lia.
  - f_equal. apply IH. intros x Hx. apply H. now right.
Qed.

Lemma filter_fresh_blocks (h : list (nat * Z)) :
  List.filter (fun blk => negb (fst blk =? fresh (map fst h))%nat) h = h.
Proof.
  apply filter_blocks_above.
  intros x Hx. apply max_list_bound in Hx. unfold fresh. lia.
Qed.

Lemma filter_fresh_blocks_cons (d : nat) (h : list (nat * Z)) :
  List.filter (fun blk => negb (fst blk =? fresh (d :: map fst h))%nat) h = h.
Proof.
  apply filter_blocks_above.
  intros x Hx. apply max_list_bound in Hx. unfold fresh; simpl. lia.
Qed.

Lemma fresh_not_head (d : nat) (l : list nat) : (fresh (d :: l) =? d)%nat = false.
Proof. apply Nat.eqb_neq. unfold fresh; simpl. lia. Qed.

Lemma live_after_free (b : nat) (h : list (nat * Z)) :
  existsb (fun blk => (fst blk =? b)%nat)
    (List.filter (fun blk => negb (fst blk =? b)%nat) h) = false.
Proof.
  induction h as [|y h IH]; simpl; [reflexivity|].
  destruct (Nat.eqb_spec (fst y) b) as [E|E]; simpl; [exact IH|].
  destruct (Nat.eqb_spec (fst y) b); [contradiction|exact IH].
Qed.

(** ** Header lines *)

Lemma classify_chan (line : string) (chan : nat) (rest : string) :
  classify line = HScale chan rest ->
  is_digit_1_9 (char_at line 6) = true /\
  chan = (nat_of_ascii (char_at line 6) - 49)%nat /\
  (chan <= 8)%nat.
Proof.
  unfold classify.
  destruct (starts_with "Time:" line); [discriminate|].
  destruct (starts_with "Scale-" line); simpl; [|discriminate].
  destruct (is_digit_1_9 (char_at line 6)) eqn:Hd; simpl; [|discriminate].
  destruct (Ascii.eqb (char_at line 7) ":"); [|discriminate].
  intros H; injection H as <- _.
  unfold is_digit_1_9 in Hd.
  apply andb_true_iff in Hd as [H1 H2].
  apply Nat.leb_le in H1, H2. repeat split; lia.
Qed.

(** ** The header loop *)

Lemma set_scale_same (s : sample_source_t) : set_scale (scale s) s = s.
Proof. destruct s; reflexivity. Qed.

Lemma frame_refl (st : parse_state) : frame st st.
Proof.
  destruct st as [[s l] w]; simpl. rewrite set_scale_same. tauto.
Qed.

Lemma frame_trans (a b c : parse_state) : frame a b -> frame b c -> frame a c.
Proof.
  destruct a as [[s1 l1] w1], b as [[s2 l2] w2], c as [[s3 l3] w3]; simpl.
  intros (E1 & A1 & B1 & C1 & D1) (E2 & A2 & B2 & C2 & D2).
  repeat split; try congruence.
  rewrite E2, E1. reflexivity.
Qed.

Lemma store_Done {A} (a a' : list A) (i : nat) (x : A) :
  store a i x = Done a' -> (i < length a)%nat /\ a' = <[i := x]> a.
Proof.
  unfold store. destruct (Nat.ltb_spec i (length a)) as [Hlt|Hge]; [|discriminate].
  intros E; injection E as <-. tauto.
Qed.

Lemma store_in_bounds {A} (a : list A) (i : nat) (x : A) :
  (i < length a)%nat -> store a i x = Done (<[i := x]> a).
Proof.
  intros H. unfold store. destruct (Nat.ltb_spec i (length a)); [reflexivity|lia].
Qed.

Lemma store_out_of_bounds {A} (a : list A) (i : nat) (x : A) :
  (length a <= i)%nat -> store a i x = Undefined.
Proof.
  intros H. unfold store. destruct (Nat.ltb_spec i (length a)); [lia|reflexivity].
Qed.

Lemma parse_line_time (line rest : string) (s : sample_source_t) (l : locals)
    (w : world) :
  classify line = HTime rest ->
  parse_line line (s, l, w) =
  Done (s,
        {| parsedTime := if gt_zero (TimeParse rest) then true else parsedTime l;
           parsedScale := parsedScale l;
           local_startTime := TimeParse rest |},
        fprintf (MsgTime (TimeParse rest)) w).
Proof. intros H. unfold parse_line. rewrite H. reflexivity. Qed.

Lemma parse_line_scale (line rest : string) (chan : nat) (s : sample_source_t)
    (l : locals) (w : world) :
  classify line = HScale chan rest ->
  (chan < length (scale s))%nat ->
  (chan < length (parsedScale l))%nat ->
  parse_line line (s, l, w) =
  Done (set_scale (<[chan := float32_of_double (atof rest / 32768)]> (scale s)) s,
        (if gt_zero (float32_of_double (atof rest / 32768))
         then {| parsedTime := parsedTime l;
                 parsedScale := <[chan := true]> (parsedScale l);
                 local_startTime := local_startTime l |}
         else l),
        fprintf (MsgScale (Z.of_nat chan + 1) (atof rest) chan
                   (float32_of_double (atof rest / 32768))) w).
Proof.
  intros H Hs Hp. unfold parse_line. rewrite H.
  rewrite store_in_bounds by exact Hs. cbn [bind].
  destruct (gt_zero _); [|reflexivity].
  rewrite store_in_bounds by exact Hp. reflexivity.
Qed.

Lemma parse_line_frame (line : string) (st st' : parse_state) :
  parse_line line st = Done st' -> frame st st'.
Proof.
  destruct st as [[s l] w]. unfold parse_line.
  destruct (classify line) as [rest|chan rest|].
  - intros H; injection H as <-. simpl. rewrite set_scale_same. tauto.
  - destruct (store (scale s) chan _) as [sc|] eqn:Hs; simpl; [|discriminate].
    apply store_Done in Hs as [Hlt ->].
    destruct (gt_zero _).
    + destruct (store (parsedScale l) chan true) as [ps|] eqn:Hp; simpl; [|discriminate].
      apply store_Done in Hp as [Hlt' ->].
      intros H; injection H as <-. simpl.
      rewrite !length_insert. tauto.
    + intros H; injection H as <-. simpl.
      rewrite !length_insert. tauto.
  - intros H; injection H as <-. apply frame_refl.
Qed.

Lemma parse_lines_frame (lines : list string) :
  forall st st', parse_lines lines st = Done st' -> frame st st'.
Proof.
  induction lines as [|line lines IH]; cbn [parse_lines]; intros st st' H.
  - injection H as <-. apply frame_refl.
  - destruct (parse_line line st) as [st1|] eqn:H1; cbn [bind] in H; [|discriminate].
    eapply frame_trans; [eapply parse_line_frame; eassumption|].
    apply IH. exact H.
Qed.

(** With nine elements in both arrays no store of the loop is out of
    bounds. *)
Lemma parse_line_defined (line : string) (s : sample_source_t) (l : locals)
    (w : world) :
  (9 <= length (scale s))%nat ->
  (9 <= length (parsedScale l))%nat ->
  exists st', parse_line line (s, l, w) = Done st'.
Proof.
  intros Hs Hp. unfold parse_line.
  destruct (classify line) as [rest|chan rest|] eqn:Hc; [eauto| |eauto].
  apply classify_chan in Hc as (_ & _ & Hc).
  rewrite store_in_bounds by lia. simpl.
  destruct (gt_zero _); [|eauto].
  rewrite store_in_bounds by lia. simpl. eauto.
Qed.

Lemma parse_lines_defined (lines : list string) :
  forall s l w,
    (9 <= length (scale s))%nat ->
    (9 <= length (parsedScale l))%nat ->
    exists st', parse_lines lines (s, l, w) = Done st'.
Proof.
  induction lines as [|line lines IH]; intros s l w Hs Hp; cbn [parse_lines];
    [eauto|].
  destruct (parse_line_defined line s l w Hs Hp) as [[[s1 l1] w1] H1].
  rewrite H1; cbn [bind].
  apply parse_line_frame in H1 as (_ & A & B & _).
  apply IH; lia.
Qed.

(** ** The warnings *)

Lemma check_scales_frame (ix : list nat) (l : locals) :
  forall w w', check_scales ix l w = Done w' ->
    open_files w' = open_files w /\ heap w' = heap w.
Proof.
  induction ix as [|i ix IH]; simpl; intros w w' H.
  - injection H as <-. tauto.
  - destruct (load (parsedScale l) i) as [b|]; simpl in H; [|discriminate].
    apply IH in H. destruct b; simpl in H; exact H.
Qed.

Lemma check_headers_frame (l : locals) (w w' : world) :
  check_headers l w = Done w' ->
  open_files w' = open_files w /\ heap w' = heap w.
Proof.
  unfold check_headers. intros H. apply check_scales_frame in H.
  destruct (parsedTime l); simpl in H; exact H.
Qed.

Lemma load_Some {A} (a : list A) (i : nat) (x : A) :
  a !! i = Some x -> load a i = Done x.
Proof. intros H. unfold load. rewrite H. reflexivity. Qed.

Lemma check_headers_warnings (l : locals) (w : world) (b0 b1 b2 : bool) :
  parsedScale l !! 0%nat = Some b0 ->
  parsedScale l !! 1%nat = Some b1 ->
  parsedScale l !! 2%nat = Some b2 ->
  check_headers l w =
  Done {| open_files := open_files w; heap := heap w;
          stderr := stderr w ++ warnings (parsedTime l) b0 b1 b2 |}.
Proof.
  intros H0 H1 H2. unfold check_headers; cbn [seq check_scales].
  rewrite (load_Some _ _ _ H0), (load_Some _ _ _ H1), (load_Some _ _ _ H2).
  cbn [bind]. unfold warnings, fprintf.
  destruct w as [fs h e].
  destruct (parsedTime l), b0, b1, b2; simpl;
    rewrite <- ?app_assoc, ?app_nil_r; reflexivity.
Qed.

(** ** What the loop computes *)

Lemma parse_line_summary (line : string) (s s' : sample_source_t)
    (l l' : locals) (w w' : world) :
  parse_line line (s, l, w) = Done (s', l', w') ->
  local_startTime l' = time_step (local_startTime l) line /\
  parsedTime l' = time_flag_step (parsedTime l) line /\
  (forall i v, scale s !! i = Some v ->
     scale s' !! i = Some (scale_step i v line)) /\
  (forall i b, parsedScale l !! i = Some b ->
     parsedScale l' !! i = Some (scale_flag_step i b line)) /\
  (forall m, List.In m (stderr w) -> List.In m (stderr w')).
Proof.
  unfold parse_line, time_step, time_flag_step, scale_step, scale_flag_step.
  destruct (classify line) as [rest|chan rest|].
  - intros H; injection H as <- <- <-. cbn.
    repeat split; try tauto. intros m Hm. apply in_or_app; tauto.
  - destruct (store (scale s) chan _) as [sc|] eqn:Hs; cbn [bind]; [|discriminate].
    apply store_Done in Hs as [Hlt ->].
    assert (Hsc : forall i v, scale s !! i = Some v ->
              <[chan := float32_of_double (atof rest / 32768)]> (scale s) !! i
              = Some (if (chan =? i)%nat
                      then float32_of_double (atof rest / 32768) else v)).
    { intros i v Hv. destruct (Nat.eqb_spec chan i) as [->|Hne].
      - apply list_lookup_insert_eq. exact Hlt.
      - rewrite list_lookup_insert_ne by exact Hne. exact Hv. }
    destruct (gt_zero _) eqn:Hg.
    + destruct (store (parsedScale l) chan true) as [ps|] eqn:Hp; cbn [bind];
        [|discriminate].
      apply store_Done in Hp as [Hlt' ->].
      intros H; injection H as <- <- <-. cbn.
      repeat split; try exact Hsc.
      * intros i b Hb. destruct (Nat.eqb_spec chan i) as [->|Hne]; cbn.
        -- apply list_lookup_insert_eq. exact Hlt'.
        -- rewrite list_lookup_insert_ne by exact Hne. exact Hb.
      * intros m Hm. apply in_or_app; tauto.
    + intros H; injection H as <- <- <-. cbn.
      repeat split; try exact Hsc.
      * intros i b Hb. rewrite andb_false_r. exact Hb.
      * intros m Hm. apply in_or_app; tauto.
  - intros H; injection H as <- <- <-. tauto.
Qed.

Lemma parse_lines_summary (lines : list string) :
  forall s l w s' l' w',
    parse_lines lines (s, l, w) = Done (s', l', w') ->
    local_startTime l' = fold_left time_step lines (local_startTime l) /\
    parsedTime l' = fold_left time_flag_step lines (parsedTime l) /\
    (forall i v, scale s !! i = Some v ->
       scale s' !! i = Some (fold_left (scale_step i) lines v)) /\
    (forall i b, parsedScale l !! i = Some b ->
       parsedScale l' !! i = Some (fold_left (scale_flag_step i) lines b)) /\
    (forall m, List.In m (stderr w) -> List.In m (stderr w')).
Proof.
  induction lines as [|line lines IH]; cbn [parse_lines fold_left];
    intros s l w s' l' w' H.
  - injection H as <- <- <-. tauto.
  - destruct (parse_line line (s, l, w)) as [[[s1 l1] w1]|] eqn:H1;
      cbn [bind] in H; [|discriminate H].
    apply parse_line_summary in H1 as (A1 & B1 & C1 & D1 & E1).
    apply IH in H as (A & B & C & D & E).
    rewrite A, B, A1, B1. repeat split.
    + intros i v Hv. apply C, C1, Hv.
    + intros i b Hb. apply D, D1, Hb.
    + intros m Hm. apply E, E1, Hm.
Qed.

(** Without a [Time] line of positive value the flag stays down. *)
Lemma time_flag_down (lines : list string) :
  (forall line rest, List.In line lines -> classify line = HTime rest ->
     gt_zero (TimeParse rest) = false) ->
  fold_left time_flag_step lines false = false.
Proof.
  induction lines as [|line lines IH]; cbn [fold_left]; intros H; [reflexivity|].
  assert (E : time_flag_step false line = false).
  { unfold time_flag_step.
    destruct (classify line) as [rest| |] eqn:Hc; try reflexivity.
    rewrite (H line rest (or_introl eq_refl) Hc). reflexivity. }
  rewrite E. apply IH. intros l r Hl. apply H. right. exact Hl.
Qed.

(** Without a [Scale-(i+1)] line of positive scale the flag of channel [i]
    stays down. *)
Lemma scale_flag_down (i : nat) (lines : list string) :
  (forall line rest, List.In line lines -> classify line = HScale i rest ->
     gt_zero (float32_of_double (atof rest / 32768)) = false) ->
  fold_left (scale_flag_step i) lines false = false.
Proof.
  induction lines as [|line lines IH]; cbn [fold_left]; intros H; [reflexivity|].
  assert (E : scale_flag_step i false line = false).
  { unfold scale_flag_step.
    destruct (classify line) as [|chan rest|] eqn:Hc; try reflexivity.
    destruct (Nat.eqb_spec chan i) as [->|Hne]; [|reflexivity].
    rewrite (H line rest (or_introl eq_refl) Hc). reflexivity. }
  rewrite E. apply IH. intros l r Hl. apply H. right. exact Hl.
Qed.

(** ** Loading the data *)

Lemma read_data_result (env : file_env) (fp d : nat) (sz : Z)
    (h : list (nat * Z)) (fs : list nat) (e : list msg) (s : sample_source_t) :
  fp = fresh fs ->
  d = fresh (map fst h) ->
  read_data env fp {| base := Some d; ofs := 0 |} s
    {| open_files := fp :: fs; heap := (d, sz) :: h; stderr := e |} =
  if negb (malloc_ok env)
  then Done (EXIT_SOFTWARE, s,
             {| open_files := fs; heap := (d, sz) :: h;
                stderr := (e ++ [MsgAllocating (ftell_length env)])
                          ++ [ErrAllocating (ftell_length env)] |})
  else if negb (fread_count env =? to_size_t (ftell_length env))
  then Done (EXIT_IOERR, s,
             {| open_files := fs; heap := (d, sz) :: h;
                stderr := (e ++ [MsgAllocating (ftell_length env)])
                          ++ [ErrReading (ftell_length env)] |})
  else Done (EXIT_OK,
             set_buffer {| base := Some (fresh (d :: map fst h)); ofs := 0 |}
               (ftell_length env) s,
             {| open_files := fs;
                heap := (fresh (d :: map fst h), to_size_t (ftell_length env)) :: h;
                stderr := e ++ [MsgAllocating (ftell_length env)] |}).
Proof.
  intros -> ->. unfold read_data.
  destruct (malloc_ok env); cbn [negb].
  - cbn [malloc fprintf heap open_files stderr map fst].
    destruct (fread_count env =? to_size_t (ftell_length env)); cbn [negb];
      unfold free, fclose, live, fprintf;
      repeat (progress
                (cbn [bind andb orb negb List.filter existsb fst base ofs
                      heap open_files stderr Z.eqb];
                 rewrite ?Nat.eqb_refl, ?orb_true_r, ?fresh_not_head)).
    + rewrite filter_fresh, filter_fresh_blocks. reflexivity.
    + rewrite Nat.eqb_sym, fresh_not_head. cbn [negb].
      rewrite filter_fresh, filter_fresh_blocks_cons. reflexivity.
  - unfold fclose, fprintf; cbn [heap open_files stderr List.filter].
    rewrite Nat.eqb_refl. cbn [negb].
    rewrite filter_fresh. reflexivity.
Qed.

(** ** Opening *)

(** On a validated file, open is the header loop, the warnings and the
    loading of the data, from the states of line 144. *)
Lemma SampleSourceOpen_validated (env : file_env) (s : sample_source_t)
    (filename : string) (w : world) :
  validated env ->
  SampleSourceOpen env s filename w =
  (st <- parse_headers (commentLines (c_str (WavRead_comment env)))
           (source_at_headers env s) (world_at_headers env filename w) ;;
   let '(s1, l1, w1) := st in
   w2 <- check_headers l1 w1 ;;
   read_data env (fresh (open_files w))
     {| base := Some (comment_block w); ofs := 0 |}
     (set_header (WavRead_info env) (local_startTime l1) s1) w2).
Proof.
  intros (Hf & Hw & Hb & [Hc1 Hc2] & Hq & Hd).
  unfold SampleSourceOpen. rewrite Hf, Hw, Hb, Hd. cbn [negb Z.eqb Pos.eqb].
  destruct (Z.ltb_spec (Wav.chans (WavRead_info env)) 1); [lia|].
  destruct (Z.ltb_spec (Z.of_nat CHANNELS_MAX) (Wav.chans (WavRead_info env)));
    [lia|].
  destruct (Z.ltb_spec (Wav.freq (WavRead_info env)) 1); [lia|].
  reflexivity.
Qed.

(** Once the header loop has run on a validated file, open returns; the
    scale array and the start time of the source are those of the loop, and
    the diagnostic stream holds the messages of the loop, then the warnings,
    then the messages of the load. *)
Lemma SampleSourceOpen_after_headers (env : file_env) (s : sample_source_t)
    (filename : string) (w : world)
    (s1 : sample_source_t) (l1 : locals) (w1 : world) (b0 b1 b2 : bool) :
  validated env ->
  parse_headers (commentLines (c_str (WavRead_comment env)))
    (source_at_headers env s) (world_at_headers env filename w)
  = Done (s1, l1, w1) ->
  parsedScale l1 !! 0%nat = Some b0 ->
  parsedScale l1 !! 1%nat = Some b1 ->
  parsedScale l1 !! 2%nat = Some b2 ->
  exists code s' w' tail,
    SampleSourceOpen env s filename w = Done (code, s', w') /\
    loaded code /\
    scale s' = scale s1 /\
    startTime s' = local_startTime l1 /\
    numChannels s' = Wav.chans (WavRead_info env) /\
    stderr w' = ((stderr w1 ++ warnings (parsedTime l1) b0 b1 b2)
                 ++ MsgAllocating (ftell_length env) :: tail)%list /\
    (tail = [] \/ tail = [ErrAllocating (ftell_length env)]
     \/ tail = [ErrReading (ftell_length env)]).
Proof.
  intros Hv Hp H0 H1 H2.
  rewrite (SampleSourceOpen_validated env s filename w Hv), Hp. cbn [bind].
  rewrite (check_headers_warnings l1 w1 b0 b1 b2 H0 H1 H2). cbn [bind].
  apply parse_lines_frame in Hp as (_ & _ & _ & Hfs & Hh).
  cbn [world_at_headers malloc fopen fprintf snd open_files heap] in Hfs, Hh.
  rewrite Hfs, Hh, read_data_result by reflexivity.
  destruct (malloc_ok env); cbn [negb].
  - destruct (fread_count env =? to_size_t (ftell_length env)); cbn [negb].
    + eexists _, _, _, []. unfold loaded. repeat split; eauto.
    + eexists _, _, _, [ErrReading (ftell_length env)].
      unfold loaded. repeat split; eauto.
      cbn [stderr]. rewrite <- app_assoc. reflexivity.
  - eexists _, _, _, [ErrAllocating (ftell_length env)].
    unfold loaded. repeat split; eauto.
    cbn [stderr]. rewrite <- app_assoc. reflexivity.
Qed.

Ltac open_cases :=
  repeat match goal with
  | |- context [bind ?m _] =>
      let E := fresh "E" in destruct m as [?|] eqn:E; simpl
  | |- context [let '(_, _) := ?p in _] =>
      let E := fresh "E" in destruct p eqn:E; simpl
  | |- context [if ?b then _ else _] =>
      let E := fresh "E" in destruct b eqn:E; simpl
  end.

(** C2. When the file opens and [WavRead] succeeds, [SampleSourceOpen]
    returns [EXIT_DATAERR] exactly when bytes-per-channel is not 2, or the
    channel count is below 1 or above [CHANNELS_MAX], or the sample rate is
    below 1. *)
Theorem SampleSourceOpen_format_validation
    (env : file_env) (s : sample_source_t) (filename : string) (w : world) :
  fopen_ok env = true ->
  WavRead_ok env = true ->
  (exists s' w', SampleSourceOpen env s filename w = Done (EXIT_DATAERR, s', w'))
  <->
  (Wav.bytesPerChannel (WavRead_info env) <> 2 \/
   Wav.chans (WavRead_info env) < 1 \/
   Z.of_nat CHANNELS_MAX < Wav.chans (WavRead_info env) \/
   Wav.freq (WavRead_info env) < 1).
Proof.
  intros Hf Hw. unfold SampleSourceOpen. rewrite Hf, Hw; simpl.
  destruct (Z.eqb_spec (Wav.bytesPerChannel (WavRead_info env)) 2) as [Hb|Hb]; simpl.
  2:{ split; [tauto|]. intros _. eauto. }
  destruct (Z.ltb_spec (Wav.chans (WavRead_info env)) 1) as [Hc1|Hc1]; simpl.
  { split; [tauto|]. intros _. eauto. }
  destruct (Z.ltb_spec (Z.of_nat CHANNELS_MAX) (Wav.chans (WavRead_info env)))
    as [Hc2|Hc2]; simpl.
  { split; [tauto|]. intros _. eauto. }
  destruct (Z.ltb_spec (Wav.freq (WavRead_info env)) 1) as [Hq|Hq]; simpl.
  { split; [tauto|]. intros _. eauto. }
  split; [|lia].
  intros (s' & w' & H). exfalso. revert H.
  unfold read_data.
  open_cases; try discriminate.
  all: destruct a as [[? ?] ?]; simpl; open_cases; discriminate.
Qed.

(** ** Reading *)

(** C1. For an open source and an in-range frame index, [SampleSourceRead]
    returns a pointer into the owned buffer at byte offset
    [dataStartOffset + 2 * index * numChannels], the frame it designates lies
    inside the buffer, and the reported span is [2 * numChannels]. *)
Theorem SampleSourceRead_offset (s : sample_source_t) (index minCount span0 : Z) :
  open_source s ->
  in_range s index ->
  let '(p, span) := SampleSourceRead s index minCount (Some span0) in
  base p = base (buffer s) /\
  ofs p = dataStartOffset s + 2 * index * numChannels s /\
  0 <= ofs p /\ ofs p + 2 * numChannels s <= bufferLength s /\
  span = Some (2 * numChannels s).
Proof.
  intros ([b Hb] & Hc & Hd & Hl) (Hi & Hfit).
  unfold SampleSourceRead, ptr_add, to_size_t; simpl.
  rewrite Hb; simpl.
  assert (Hn : 0 <= 2 * index * numChannels s) by nia.
  assert (Hlt : 2 * (index + 1) * numChannels s < 2 ^ size_bits) by lia.
  rewrite (Z.mod_small index) by nia.
  rewrite (Z.mod_small (numChannels s)) by nia.
  rewrite (Z.mod_small (2 * index)) by nia.
  rewrite (Z.mod_small (2 * index * numChannels s)) by nia.
  rewrite (Z.mod_small (2 * numChannels s)) by nia.
  repeat split; try reflexivity; nia.
Qed.

(** C9. The result of [SampleSourceRead] does not depend on [minCount]:
    the pointer and the span are the same for any two values, whatever the
    source, the index and the span destination; no value of [minCount] is
    rejected. *)
Theorem SampleSourceRead_minCount_unused
    (s : sample_source_t) (index m1 m2 : Z) (span : option Z) :
  SampleSourceRead s index m1 span = SampleSourceRead s index m2 span.
Proof. reflexivity. Qed.

(** ** Closing *)

(** C7. On a source that owns its buffer, [SampleSourceClose] is defined,
    leaves [bufferLength = 0] and a null [buffer], the block it held is no
    longer live, and a second call is defined and changes neither the source
    nor the world. *)
Theorem SampleSourceClose_idempotent (s : sample_source_t) (w : world) :
  owns w s ->
  exists s' w',
    SampleSourceClose s w = Done (s', w') /\
    bufferLength s' = 0 /\
    buffer s' = NULL /\
    (forall b, base (buffer s) = Some b -> live b w' = false) /\
    SampleSourceClose s' w' = Done (s', w').
Proof.
  intros [Hn | (b & Hb & Hl)]; unfold SampleSourceClose.
  - rewrite Hn; simpl.
    exists (set_buffer NULL 0 s), w. repeat split; try reflexivity.
    intros b Hb; discriminate Hb.
  - rewrite Hb; simpl. unfold free; simpl. rewrite Hl; simpl.
    eexists _, _. repeat split; try reflexivity.
    intros b' Hb'; injection Hb' as <-.
    unfold live; simpl. apply live_after_free.
Qed.

(** ** Headers of a given comment *)

Lemma scale_of_16384 : float32_of_double (16384 / 32768) = 0.5%float.
Proof. vm_compute. reflexivity. Qed.

Lemma scale_of_8192 : float32_of_double (8192 / 32768) = 0.25%float.
Proof. vm_compute. reflexivity. Qed.

Lemma scale_of_100 : float32_of_double (100 / 32768) = (100 / 32768)%float.
Proof. vm_compute. reflexivity. Qed.

Ltac array_length :=
  cbn [scale parsedScale source_at_headers set_info set_scale];
  rewrite ?length_insert, ?length_replicate; lia.

Ltac array_lookup :=
  cbn [scale parsedScale source_at_headers set_info set_scale];
  repeat (rewrite list_lookup_insert_ne by lia);
  first [ rewrite list_lookup_insert_eq by array_length
        | rewrite lookup_replicate_2 by lia ];
  reflexivity.

(** C3. On a validated file whose comment is the three lines
    [Time: 2020-01-01T00:00:00Z], [Scale-1: 16384] and [Scale-2: 8192],
    open returns with [startTime] the value of [TimeParse] on the text after
    [Time:], [scale[0] = 0.5], [scale[1] = 0.25] and [scale[i] = 1] for every
    other channel. *)
Theorem SampleSourceOpen_three_headers
    (env : file_env) (s : sample_source_t) (filename : string) (w : world) :
  validated env ->
  (3 <= CHANNELS_MAX)%nat ->
  WavRead_comment env = block_of_three_headers ->
  atof " 16384" = 16384%float ->
  atof " 8192" = 8192%float ->
  exists code s' w',
    SampleSourceOpen env s filename w = Done (code, s', w') /\
    loaded code /\
    startTime s' = TimeParse " 2020-01-01T00:00:00Z" /\
    scale s' !! 0%nat = Some 0.5%float /\
    scale s' !! 1%nat = Some 0.25%float /\
    (forall i, (2 <= i < CHANNELS_MAX)%nat -> scale s' !! i = Some 1%float).
Proof.
  intros Hv Hmax Hc Ha1 Ha2.
  assert (Hlines : commentLines (c_str (WavRead_comment env)) =
            ["Time: 2020-01-01T00:00:00Z"; "Scale-1: 16384"; "Scale-2: 8192"]).
  { rewrite Hc. vm_compute. reflexivity. }
  edestruct (SampleSourceOpen_after_headers env s filename w)
    as (code & s' & w' & tail & HO & Hl & Hsc & Hst & _).
  - exact Hv.
  - rewrite Hlines. unfold parse_headers. cbn [parse_lines].
    rewrite (parse_line_time _ " 2020-01-01T00:00:00Z") by reflexivity.
    cbn [bind].
    rewrite (parse_line_scale _ " 16384" 0);
      [|reflexivity|array_length|array_length].
    rewrite Ha1, scale_of_16384. change (gt_zero 0.5) with true. cbn [bind].
    rewrite (parse_line_scale _ " 8192" 1);
      [|reflexivity|array_length|array_length].
    rewrite Ha2, scale_of_8192. change (gt_zero 0.25) with true. cbn [bind].
    reflexivity.
  - array_lookup.
  - array_lookup.
  - array_lookup.
  - exists code, s', w'. rewrite Hsc, Hst.
    repeat split; try assumption; try array_lookup.
    intros i Hi. array_lookup.
Qed.

(** The warnings depend on [parsedTime] and on the first three elements of
    [parsedScale] only. *)
Lemma check_headers_first_three (l l' : locals) (w : world) :
  parsedTime l = parsedTime l' ->
  (forall i, (i < 3)%nat -> parsedScale l !! i = parsedScale l' !! i) ->
  check_headers l w = check_headers l' w.
Proof.
  intros Ht Hs. unfold check_headers; cbn [seq check_scales]. unfold load.
  rewrite Ht, (Hs 0%nat), (Hs 1%nat), (Hs 2%nat) by lia. reflexivity.
Qed.

(** C6. On a validated file whose comment is the line [Scale-5: 100], with
    at least five channels allowed, open returns with
    [scale[4] = 100 / 32768.0] and prints the warnings for [Time], [Scale-1],
    [Scale-2] and [Scale-3], and no other warning; in general the warnings
    are the same for any two states of the flags that agree on [parsedTime]
    and on channels 0, 1 and 2. *)
Theorem SampleSourceOpen_scale_5
    (env : file_env) (s : sample_source_t) (filename : string) (w : world) :
  validated env ->
  (5 <= CHANNELS_MAX)%nat ->
  WavRead_comment env = "Scale-5: 100" ->
  atof " 100" = 100%float ->
  (exists code s' w' tail,
     SampleSourceOpen env s filename w = Done (code, s', w') /\
     loaded code /\
     scale s' !! 4%nat = Some (100 / 32768)%float /\
     stderr w' =
       (stderr w ++
        [MsgLoading filename;
         MsgScale 5 100%float 4 (100 / 32768)%float;
         WarnTime; WarnScale 1; WarnScale 2; WarnScale 3;
         MsgAllocating (ftell_length env)] ++ tail)%list /\
     (forall k, ~ List.In (WarnScale k) tail)) /\
  (forall (l l' : locals) (w0 : world),
     parsedTime l = parsedTime l' ->
     (forall i, (i < 3)%nat -> parsedScale l !! i = parsedScale l' !! i) ->
     check_headers l w0 = check_headers l' w0).
Proof.
  intros Hv Hmax Hc Ha. split; [|exact check_headers_first_three].
  assert (Hlines : commentLines (c_str (WavRead_comment env)) = ["Scale-5: 100"]).
  { rewrite Hc. vm_compute. reflexivity. }
  edestruct (SampleSourceOpen_after_headers env s filename w)
    as (code & s' & w' & tail & HO & Hl & Hsc & _ & _ & Herr & Ht).
  - exact Hv.
  - rewrite Hlines. unfold parse_headers. cbn [parse_lines].
    rewrite (parse_line_scale _ " 100" 4);
      [|reflexivity|array_length|array_length].
    rewrite Ha, scale_of_100. change (gt_zero (100 / 32768)) with true.
    cbn [bind]. reflexivity.
  - array_lookup.
  - array_lookup.
  - array_lookup.
  - exists code, s', w', tail. rewrite Hsc, Herr.
    repeat split; try assumption; try array_lookup.
    + cbn. rewrite <- !app_assoc. reflexivity.
    + intros k Hk.
      destruct Ht as [ -> | [ -> | -> ] ]; cbn in Hk; [tauto| |];
        destruct Hk as [Hk|Hk]; [discriminate Hk|exact Hk|discriminate Hk|exact Hk].
Qed.

(** The header loop on a validated file, when [CHANNELS_MAX] is at least 9:
    it ends, and the three flags that line 169 reads exist. *)
Lemma headers_parsed (env : file_env) (s : sample_source_t)
    (filename : string) (w : world) :
  (9 <= CHANNELS_MAX)%nat ->
  exists s1 l1 w1 b0 b1 b2,
    parse_headers (commentLines (c_str (WavRead_comment env)))
      (source_at_headers env s) (world_at_headers env filename w)
    = Done (s1, l1, w1) /\
    parsedScale l1 !! 0%nat = Some b0 /\
    parsedScale l1 !! 1%nat = Some b1 /\
    parsedScale l1 !! 2%nat = Some b2.
Proof.
  intros Hmax. unfold parse_headers.
  edestruct (parse_lines_defined (commentLines (c_str (WavRead_comment env))))
    as [[[s1 l1] w1] Hp]; [| |rewrite Hp].
  - array_length.
  - cbn. rewrite length_replicate. lia.
  - apply parse_lines_frame in Hp as (_ & _ & Hlen & _).
    cbn in Hlen. rewrite length_replicate in Hlen.
    destruct (lookup_lt_is_Some_2 (parsedScale l1) 0) as [b0 H0]; [lia|].
    destruct (lookup_lt_is_Some_2 (parsedScale l1) 1) as [b1 H1]; [lia|].
    destruct (lookup_lt_is_Some_2 (parsedScale l1) 2) as [b2 H2]; [lia|].
    exists s1, l1, w1, b0, b1, b2. tauto.
Qed.

(** C4, with the value that the code stores.  On a validated file in whose
    comment no [Time] line parses to a positive value, open returns and
    prints the warning of line 166; [startTime] is what [TimeParse] gave for
    the last [Time] line ([0] when there is none), whatever its sign. *)
Theorem SampleSourceOpen_no_positive_time
    (env : file_env) (s : sample_source_t) (filename : string) (w : world) :
  validated env ->
  (9 <= CHANNELS_MAX)%nat ->
  (forall line rest,
     List.In line (commentLines (c_str (WavRead_comment env))) ->
     classify line = HTime rest ->
     gt_zero (TimeParse rest) = false) ->
  exists code s' w',
    SampleSourceOpen env s filename w = Done (code, s', w') /\
    loaded code /\
    List.In WarnTime (stderr w') /\
    startTime s' = last_time (commentLines (c_str (WavRead_comment env))).
Proof.
  intros Hv Hmax Hneg.
  destruct (headers_parsed env s filename w Hmax)
    as (s1 & l1 & w1 & b0 & b1 & b2 & Hp & H0 & H1 & H2).
  destruct (SampleSourceOpen_after_headers env s filename w s1 l1 w1 b0 b1 b2
              Hv Hp H0 H1 H2)
    as (code & s' & w' & tail & HO & Hl & _ & Hst & _ & Herr & _).
  apply parse_lines_summary in Hp as (Ht & Hf & _).
  cbn [parsedTime local_startTime] in Ht, Hf.
  rewrite (time_flag_down _ Hneg) in Hf.
  exists code, s', w'. rewrite Hst, Herr, Hf, Ht.
  repeat split; try assumption; try reflexivity.
  apply in_or_app; left. apply in_or_app; right. cbn. tauto.
Qed.

(** C5, with the value that the code stores.  On a validated file in whose
    comment no [Scale-(i+1)] line gives a positive scale, for [i] among 0, 1
    and 2, open returns and prints the warning of line 169 for that channel;
    [scale[i]] is what the last [Scale-(i+1)] line gave ([1.0] when there is
    none), whatever its sign. *)
Theorem SampleSourceOpen_no_positive_scale
    (env : file_env) (s : sample_source_t) (filename : string) (w : world)
    (i : nat) :
  validated env ->
  (9 <= CHANNELS_MAX)%nat ->
  (i < 3)%nat ->
  (forall line rest,
     List.In line (commentLines (c_str (WavRead_comment env))) ->
     classify line = HScale i rest ->
     gt_zero (float32_of_double (atof rest / 32768)) = false) ->
  exists code s' w',
    SampleSourceOpen env s filename w = Done (code, s', w') /\
    loaded code /\
    List.In (WarnScale (Z.of_nat i + 1)) (stderr w') /\
    scale s' !! i
    = Some (last_scale i (commentLines (c_str (WavRead_comment env)))).
Proof.
  intros Hv Hmax Hi Hneg.
  destruct (headers_parsed env s filename w Hmax)
    as (s1 & l1 & w1 & b0 & b1 & b2 & Hp & H0 & H1 & H2).
  destruct (SampleSourceOpen_after_headers env s filename w s1 l1 w1 b0 b1 b2
              Hv Hp H0 H1 H2)
    as (code & s' & w' & tail & HO & Hl & Hsc & _ & _ & Herr & _).
  apply parse_lines_summary in Hp as (_ & _ & Hs & Hf & _).
  specialize (Hs i 1%float). specialize (Hf i false).
  rewrite (scale_flag_down i _ Hneg) in Hf.
  assert (Hfi : parsedScale l1 !! i = Some false).
  { apply Hf. cbn. apply lookup_replicate_2. lia. }
  exists code, s', w'. rewrite Hsc, Herr.
  repeat split; try assumption.
  - apply in_or_app; left. apply in_or_app; right. unfold warnings.
    destruct i as [|[|[|i]]]; [| | |lia].
    + rewrite H0 in Hfi. injection Hfi as ->.
      apply in_or_app; right. apply in_or_app; left. cbn. tauto.
    + rewrite H1 in Hfi. injection Hfi as ->.
      apply in_or_app; right. apply in_or_app; right.
      apply in_or_app; left. cbn. tauto.
    + rewrite H2 in Hfi. injection Hfi as ->.
      apply in_or_app; right. apply in_or_app; right.
      apply in_or_app; right. cbn. tauto.
  - apply Hs. array_lookup.
Qed.

(** ** Bounds of the stores *)

(** An iteration changes [scale] and [parsedScale] at most at the channel of
    its line. *)
Lemma parse_line_stores (line : string) (s s' : sample_source_t)
    (l l' : locals) (w w' : world) (i : nat) :
  parse_line line (s, l, w) = Done (s', l', w') ->
  scale s' !! i <> scale s !! i \/ parsedScale l' !! i <> parsedScale l !! i ->
  exists rest, classify line = HScale i rest.
Proof.
  unfold parse_line.
  destruct (classify line) as [rest|chan rest|] eqn:Hc.
  - intros H; injection H as <- <- _. cbn. tauto.
  - destruct (store (scale s) chan _) as [sc|] eqn:Hs; cbn [bind]; [|discriminate].
    apply store_Done in Hs as [_ ->].
    destruct (Nat.eq_dec i chan) as [->|Hne]; [eauto|].
    destruct (gt_zero _).
    + destruct (store (parsedScale l) chan true) as [ps|] eqn:Hp; cbn [bind];
        [|discriminate].
      apply store_Done in Hp as [_ ->].
      intros H; injection H as <- <- _. cbn.
      rewrite !list_lookup_insert_ne by congruence. tauto.
    + intros H; injection H as <- <- _. cbn.
      rewrite !list_lookup_insert_ne by congruence. tauto.
  - intros H; injection H as <- <- _. tauto.
Qed.

(** C10. A store of the header loop into [scale] or [parsedScale] is at the
    index of the digit of its [Scale-] line minus one, between 0 and 8; the
    loop is free of out-of-bounds stores on every comment exactly when
    [CHANNELS_MAX] is at least 9; and the index can be above the channels of
    the file: on a one-channel file with the comment [Scale-9: 1], open
    returns with [numChannels = 1] and [scale[8]] overwritten. *)
Theorem Scale_header_stores_in_bounds :
  (forall line s l w s' l' w' i,
     parse_line line (s, l, w) = Done (s', l', w') ->
     scale s' !! i <> scale s !! i \/ parsedScale l' !! i <> parsedScale l !! i ->
     is_digit_1_9 (char_at line 6) = true /\
     i = (nat_of_ascii (char_at line 6) - 49)%nat /\
     (i <= 8)%nat) /\
  ((forall comment s w,
      length (scale s) = CHANNELS_MAX ->
      parse_headers (commentLines (c_str comment)) s w <> Undefined)
   <-> (9 <= CHANNELS_MAX)%nat) /\
  ((9 <= CHANNELS_MAX)%nat ->
   forall s filename w,
   exists code s' w',
     SampleSourceOpen (recording 1 "Scale-9: 1" true) s filename w
     = Done (code, s', w') /\
     numChannels s' = 1 /\
     scale s' !! 8%nat = Some (float32_of_double (atof " 1" / 32768))).
Proof.
  split; [|split].
  - intros line s l w s' l' w' i H Hi.
    destruct (parse_line_stores _ _ _ _ _ _ _ _ H Hi) as [rest Hc].
    exact (classify_chan _ _ _ Hc).
  - split.
    + intros H. destruct (le_lt_dec 9 CHANNELS_MAX) as [Hle|Hlt]; [exact Hle|].
      exfalso.
      apply (H "Scale-9: 1" (blank_source CHANNELS_MAX) empty_world).
      { cbn. apply length_replicate. }
      change (commentLines (c_str "Scale-9: 1")) with ["Scale-9: 1"].
      unfold parse_headers. cbn [parse_lines]. unfold parse_line.
      change (classify "Scale-9: 1") with (HScale 8 " 1"). cbv beta iota.
      rewrite store_out_of_bounds; [reflexivity|].
      cbn. rewrite length_replicate. lia.
    + intros Hle comment s w Hs.
      destruct (parse_lines_defined (commentLines (c_str comment)) s
                  {| parsedTime := false;
                     parsedScale := replicate CHANNELS_MAX false;
                     local_startTime := 0 |} w) as [st' Hst].
      * lia.
      * cbn. rewrite length_replicate. lia.
      * unfold parse_headers. rewrite Hst. discriminate.
  - intros Hle s filename w.
    assert (Hv : validated (recording 1 "Scale-9: 1" true)).
    { unfold validated; cbn. repeat split; try reflexivity; lia. }
    destruct (gt_zero (float32_of_double (atof " 1" / 32768))) eqn:Hg.
    + edestruct (SampleSourceOpen_after_headers
                   (recording 1 "Scale-9: 1" true) s filename w)
        as (code & s' & w' & tail & HO & _ & Hsc & _ & Hn & _).
      * exact Hv.
      * change (commentLines (c_str (WavRead_comment (recording 1 "Scale-9: 1" true))))
          with ["Scale-9: 1"].
        unfold parse_headers. cbn [parse_lines].
        rewrite (parse_line_scale _ " 1" 8);
          [|reflexivity|array_length|array_length].
        rewrite Hg. cbn [bind]. reflexivity.
      * array_lookup.
      * array_lookup.
      * array_lookup.
      * exists code, s', w'. rewrite Hsc, Hn.
        repeat split; try assumption; array_lookup.
    + edestruct (SampleSourceOpen_after_headers
                   (recording 1 "Scale-9: 1" true) s filename w)
        as (code & s' & w' & tail & HO & _ & Hsc & _ & Hn & _).
      * exact Hv.
      * change (commentLines (c_str (WavRead_comment (recording 1 "Scale-9: 1" true))))
          with ["Scale-9: 1"].
        unfold parse_headers. cbn [parse_lines].
        rewrite (parse_line_scale _ " 1" 8);
          [|reflexivity|array_length|array_length].
        rewrite Hg. cbn [bind]. reflexivity.
      * array_lookup.
      * array_lookup.
      * array_lookup.
      * exists code, s', w'. rewrite Hsc, Hn.
        repeat split; try assumption; array_lookup.
Qed.

(** * Further properties *)

(** ** The outcomes of open *)

(** The three ways in which open returns. *)
Lemma SampleSourceOpen_inv (env : file_env) (s : sample_source_t)
    (filename : string) (w : world)
    (code : exit_code) (s' : sample_source_t) (w' : world) :
  SampleSourceOpen env s filename w = Done (code, s', w') ->
  (fopen_ok env = false /\ code = EXIT_NOINPUT /\ s' = s /\
   w' = fprintf ErrCannotOpen (fprintf (MsgLoading filename) w))
  \/
  (fopen_ok env = true /\ ~ validated env /\ code = EXIT_DATAERR /\
   s' = source_at_headers env s /\
   open_files w' = open_files w /\ heap w' = heap w)
  \/
  (validated env /\
   exists s1 l1 w1 e2,
     parse_headers (commentLines (c_str (WavRead_comment env)))
       (source_at_headers env s) (world_at_headers env filename w)
     = Done (s1, l1, w1) /\
     check_headers l1 w1
     = Done {| open_files := fresh (open_files w) :: open_files w;
               heap := (comment_block w,
                        Z.of_nat (String.length (c_str (WavRead_comment env))) + 1)
                       :: heap w;
               stderr := e2 |} /\
     read_data env (fresh (open_files w))
       {| base := Some (comment_block w); ofs := 0 |}
       (set_header (WavRead_info env) (local_startTime l1) s1)
       {| open_files := fresh (open_files w) :: open_files w;
          heap := (comment_block w,
                   Z.of_nat (String.length (c_str (WavRead_comment env))) + 1)
                  :: heap w;
          stderr := e2 |}
     = Done (code, s', w')).
Proof.
  intros H.
  destruct (fopen_ok env) eqn:Hf.
  2:{ unfold SampleSourceOpen in H. rewrite Hf in H. cbn in H.
      injection H as <- <- <-. left. tauto. }
  destruct (WavRead_ok env) eqn:Hw.
  2:{ unfold SampleSourceOpen in H. rewrite Hf, Hw in H. cbn in H.
      injection H as <- <- <-. right; left. cbn.
      rewrite Nat.eqb_refl. cbn. rewrite filter_fresh.
      repeat split; try reflexivity.
      intros (_ & Hv & _). congruence. }
  destruct (Wav.bytesPerChannel (WavRead_info env) =? 2) eqn:Hb.
  2:{ unfold SampleSourceOpen in H. rewrite Hf, Hw, Hb in H. cbn in H.
      injection H as <- <- <-. right; left. cbn.
      rewrite Nat.eqb_refl. cbn. rewrite filter_fresh.
      repeat split; try reflexivity.
      intros (_ & _ & Hv & _). apply Z.eqb_neq in Hb. contradiction. }
  destruct ((Wav.chans (WavRead_info env) <? 1)
            || (Z.of_nat CHANNELS_MAX <? Wav.chans (WavRead_info env))) eqn:Hc.
  { unfold SampleSourceOpen in H. rewrite Hf, Hw, Hb, Hc in H. cbn in H.
    injection H as <- <- <-. right; left. cbn.
    rewrite Nat.eqb_refl. cbn. rewrite filter_fresh.
    repeat split; try reflexivity.
    intros (_ & _ & _ & Hv & _).
    apply orb_true_iff in Hc as [Hc|Hc]; apply Z.ltb_lt in Hc; lia. }
  destruct (Wav.freq (WavRead_info env) <? 1) eqn:Hq.
  { unfold SampleSourceOpen in H. rewrite Hf, Hw, Hb, Hc, Hq in H. cbn in H.
    injection H as <- <- <-. right; left. cbn.
    rewrite Nat.eqb_refl. cbn. rewrite filter_fresh.
    repeat split; try reflexivity.
    intros (_ & _ & _ & _ & Hv & _). apply Z.ltb_lt in Hq. lia. }
  destruct (strdup_ok env) eqn:Hd.
  2:{ unfold SampleSourceOpen in H. rewrite Hf, Hw, Hb, Hc, Hq, Hd in H.
      cbn in H. discriminate H. }
  assert (Hv : validated env).
  { apply Z.eqb_eq in Hb. apply orb_false_iff in Hc as [Hc1 Hc2].
    apply Z.ltb_ge in Hc1, Hc2, Hq. unfold validated. tauto. }
  right; right. split; [exact Hv|].
  rewrite (SampleSourceOpen_validated env s filename w Hv) in H.
  destruct (parse_headers _ _ _) as [[[s1 l1] w1]|] eqn:Hp;
    cbn [bind] in H; [|discriminate H].
  destruct (check_headers l1 w1) as [w2|] eqn:Hk;
    cbn [bind] in H; [|discriminate H].
  pose proof (parse_lines_frame _ _ _ Hp) as (_ & _ & _ & Hfs & Hh).
  pose proof (check_headers_frame _ _ _ Hk) as (Hfs2 & Hh2).
  cbn [world_at_headers malloc fopen fprintf snd open_files heap] in Hfs, Hh.
  destruct w2 as [fs2 h2 e2]. cbn [open_files heap] in Hfs2, Hh2.
  rewrite Hfs in Hfs2. rewrite Hh in Hh2. subst fs2 h2.
  exists s1, l1, w1, e2. repeat split; assumption.
Qed.

Lemma fresh_not_live (h : list (nat * Z)) :
  existsb (fun blk => (fst blk =? fresh (map fst h))%nat) h = false.
Proof.
  assert (G : forall k, (forall x, List.In x (map fst h) -> (x < k)%nat) ->
            existsb (fun blk => (fst blk =? k)%nat) h = false).
  { intros k. induction h as [|y h IH]; simpl; intros H; [reflexivity|].
    destruct (Nat.eqb_spec (fst y) k) as [E|E]; simpl.
    - specialize (H (fst y) (or_introl eq_refl)). lia.
    - apply IH. intros x Hx. apply H. now right. }
  apply G. intros x Hx. apply max_list_bound in Hx. unfold fresh. lia.
Qed.

Lemma data_block_not_live (w : world) (sz : Z) :
  existsb (fun blk => (fst blk =? data_block w)%nat)
    ((comment_block w, sz) :: heap w) = false.
Proof.
  unfold data_block.
  change (comment_block w :: map fst (heap w))
    with (map fst ((comment_block w, sz) :: heap w)).
  apply fresh_not_live.
Qed.

(** C8 (amended). When [SampleSourceOpen] returns an exit code other than
    [EXIT_OK]: the files that are open are those that were open before the
    call; the block of the data buffer is not live, and every block that was
    live before the call still is; [buffer] and [bufferLength] of the source
    are those of before the call.  The other fields are not restored: after
    [EXIT_NOINPUT] the source is untouched; after [EXIT_DATAERR] every scale
    is [1.0] and the four text buffers hold what [WavRead] wrote, the format
    fields and the start time being those of before the call; after
    [EXIT_SOFTWARE] and [EXIT_IOERR] the text buffers hold what [WavRead]
    wrote, the format fields are those of the file, and the start time and
    the scales are those that the headers of the comment gave. *)
Theorem SampleSourceOpen_failure_releases
    (env : file_env) (s : sample_source_t) (filename : string) (w : world)
    (code : exit_code) (s' : sample_source_t) (w' : world) :
  SampleSourceOpen env s filename w = Done (code, s', w') ->
  code <> EXIT_OK ->
  (open_files w' = open_files w /\
   live (data_block w) w' = false /\
   (forall blk, List.In blk (heap w) -> List.In blk (heap w')) /\
   buffer s' = buffer s /\
   bufferLength s' = bufferLength s) /\
  (code = EXIT_NOINPUT -> s' = s) /\
  (code = EXIT_DATAERR ->
   scale s' = replicate CHANNELS_MAX 1%float /\
   (infoArtist s' = WavRead_artist env /\ infoName s' = WavRead_name env /\
    infoComment s' = WavRead_comment env /\ infoDate s' = WavRead_date env) /\
   (numChannels s' = numChannels s /\ numSamples s' = numSamples s /\
    sampleRate s' = sampleRate s /\ dataStartOffset s' = dataStartOffset s) /\
   startTime s' = startTime s) /\
  (code = EXIT_SOFTWARE \/ code = EXIT_IOERR ->
   (infoArtist s' = WavRead_artist env /\ infoName s' = WavRead_name env /\
    infoComment s' = WavRead_comment env /\ infoDate s' = WavRead_date env) /\
   (numChannels s' = Wav.chans (WavRead_info env) /\
    numSamples s' = Wav.numSamples (WavRead_info env) /\
    sampleRate s' = Wav.freq (WavRead_info env) /\
    dataStartOffset s' = Wav.offset (WavRead_info env)) /\
   startTime s' = last_time (commentLines (c_str (WavRead_comment env))) /\
   (forall i, (i < CHANNELS_MAX)%nat ->
      scale s' !! i
      = Some (last_scale i (commentLines (c_str (WavRead_comment env)))))).
Proof.
  intros H Hne.
  pose proof (data_block_not_live w 0) as Hnl.
  cbn [existsb] in Hnl. apply orb_false_iff in Hnl as [_ Hnl].
  apply SampleSourceOpen_inv in H
    as [(_ & -> & -> & ->)|[(_ & _ & -> & -> & Hfs & Hh)
       |(Hv & s1 & l1 & w1 & e2 & Hp & _ & H)]].
  - split; [|split; [|split]].
    + cbn. split; [reflexivity|]. split; [exact Hnl|]. tauto.
    + reflexivity.
    + discriminate.
    + intros [E|E]; discriminate E.
  - split; [|split; [|split]].
    + unfold live. rewrite Hfs, Hh. cbn.
      split; [reflexivity|]. split; [exact Hnl|]. tauto.
    + discriminate.
    + intros _. cbn. repeat split.
    + intros [E|E]; discriminate E.
  - pose proof (parse_lines_frame _ _ _ Hp) as (Hs1 & _).
    unfold parse_headers in Hp.
    apply parse_lines_summary in Hp as (Ht & _ & Hs & _).
    cbn [local_startTime] in Ht.
    assert (Hsc : forall i, (i < CHANNELS_MAX)%nat ->
              scale s1 !! i
              = Some (last_scale i (commentLines (c_str (WavRead_comment env))))).
    { intros i Hi. apply Hs. array_lookup. }
    rewrite read_data_result in H by reflexivity.
    assert (Hfail :
      forall e,
        (open_files {| open_files := open_files w;
                       heap := (comment_block w,
                                Z.of_nat (String.length
                                            (c_str (WavRead_comment env))) + 1)
                               :: heap w;
                       stderr := e |} = open_files w /\
         live (data_block w)
           {| open_files := open_files w;
              heap := (comment_block w,
                       Z.of_nat (String.length
                                   (c_str (WavRead_comment env))) + 1)
                      :: heap w;
              stderr := e |} = false /\
         (forall blk, List.In blk (heap w) ->
            List.In blk
              (heap {| open_files := open_files w;
                       heap := (comment_block w,
                                Z.of_nat (String.length
                                            (c_str (WavRead_comment env))) + 1)
                               :: heap w;
                       stderr := e |})) /\
         buffer (set_header (WavRead_info env) (local_startTime l1) s1)
         = buffer s /\
         bufferLength (set_header (WavRead_info env) (local_startTime l1) s1)
         = bufferLength s) /\
        (infoArtist (set_header (WavRead_info env) (local_startTime l1) s1)
         = WavRead_artist env /\
         infoName (set_header (WavRead_info env) (local_startTime l1) s1)
         = WavRead_name env /\
         infoComment (set_header (WavRead_info env) (local_startTime l1) s1)
         = WavRead_comment env /\
         infoDate (set_header (WavRead_info env) (local_startTime l1) s1)
         = WavRead_date env)).
    { intros e. rewrite Hs1.
      split; [|repeat split].
      split; [reflexivity|].
      split; [exact (data_block_not_live w _)|].
      split; [intros blk Hin; right; exact Hin|].
      split; reflexivity. }
    destruct (malloc_ok env); cbn [negb] in H.
    + destruct (fread_count env =? to_size_t (ftell_length env));
        cbn [negb] in H; injection H as <- <- <-;
        [contradiction Hne; reflexivity|].
      destruct (Hfail ((e2 ++ [MsgAllocating (ftell_length env)])
                       ++ [ErrReading (ftell_length env)])%list)
        as (Hres & Htxt).
      split; [exact Hres|]. split; [discriminate|]. split; [discriminate|].
      intros _. split; [exact Htxt|]. cbn.
      split; [repeat split|]. split; [exact Ht|exact Hsc].
    + injection H as <- <- <-.
      destruct (Hfail ((e2 ++ [MsgAllocating (ftell_length env)])
                       ++ [ErrAllocating (ftell_length env)])%list)
        as (Hres & Htxt).
      split; [exact Hres|]. split; [discriminate|]. split; [discriminate|].
      intros _. split; [exact Htxt|]. cbn.
      split; [repeat split|]. split; [exact Ht|exact Hsc].
Qed.

(** How open returns [EXIT_OK]. *)
Lemma SampleSourceOpen_ok_inv (env : file_env) (s : sample_source_t)
    (filename : string) (w : world) (s' : sample_source_t) (w' : world) :
  SampleSourceOpen env s filename w = Done (EXIT_OK, s', w') ->
  validated env /\
  malloc_ok env = true /\
  fread_count env = to_size_t (ftell_length env) /\
  exists s1 l1 w1 e2,
    parse_headers (commentLines (c_str (WavRead_comment env)))
      (source_at_headers env s) (world_at_headers env filename w)
    = Done (s1, l1, w1) /\
    s' = set_buffer {| base := Some (data_block w); ofs := 0 |}
           (ftell_length env)
           (set_header (WavRead_info env) (local_startTime l1) s1) /\
    w' = {| open_files := open_files w;
            heap := (data_block w, to_size_t (ftell_length env)) :: heap w;
            stderr := e2 ++ [MsgAllocating (ftell_length env)] |}.
Proof.
  intros H.
  apply SampleSourceOpen_inv in H
    as [(_ & E & _)|[(_ & _ & E & _)|(Hv & s1 & l1 & w1 & e2 & Hp & _ & H)]];
    try discriminate E.
  rewrite read_data_result in H by reflexivity.
  destruct (malloc_ok env); cbn [negb] in H; [|discriminate H].
  destruct (Z.eqb_spec (fread_count env) (to_size_t (ftell_length env)))
    as [Hr|Hr]; cbn [negb] in H; [|discriminate H].
  injection H as <- <-.
  split; [exact Hv|]. split; [reflexivity|]. split; [exact Hr|].
  exists s1, l1, w1, e2. split; [exact Hp|]. split; reflexivity.
Qed.

(** X1. When open returns [EXIT_OK], the source describes the file: the
    format fields and the text buffers are those that [WavRead] gave, the
    channel count is between 1 and [CHANNELS_MAX], the sample rate is at
    least 1, [scale] has [CHANNELS_MAX] elements, [buffer] is a new block of
    the size of the file and [bufferLength] that size; the file has been
    closed, the duplicate of the comment freed, and the source owns its
    buffer. *)
Theorem SampleSourceOpen_ok_state (env : file_env) (s : sample_source_t)
    (filename : string) (w : world) (s' : sample_source_t) (w' : world) :
  SampleSourceOpen env s filename w = Done (EXIT_OK, s', w') ->
  (1 <= numChannels s' <= Z.of_nat CHANNELS_MAX /\ 1 <= sampleRate s') /\
  (numChannels s' = Wav.chans (WavRead_info env) /\
   numSamples s' = Wav.numSamples (WavRead_info env) /\
   sampleRate s' = Wav.freq (WavRead_info env) /\
   dataStartOffset s' = Wav.offset (WavRead_info env)) /\
  (infoArtist s' = WavRead_artist env /\ infoName s' = WavRead_name env /\
   infoComment s' = WavRead_comment env /\ infoDate s' = WavRead_date env) /\
  length (scale s') = CHANNELS_MAX /\
  (buffer s' = {| base := Some (data_block w); ofs := 0 |} /\
   bufferLength s' = ftell_length env /\
   live (data_block w) w = false) /\
  (open_files w' = open_files w /\
   heap w' = (data_block w, to_size_t (ftell_length env)) :: heap w /\
   owns w' s').
Proof.
  intros H.
  apply SampleSourceOpen_ok_inv in H
    as (Hv & _ & _ & s1 & l1 & w1 & e2 & Hp & -> & ->).
  destruct Hv as (_ & _ & _ & Hc & Hq & _).
  apply parse_lines_frame in Hp as (Hs1 & Hlen & _).
  cbn in Hlen. rewrite length_replicate in Hlen.
  rewrite Hs1. cbn.
  repeat split; try assumption; try lia.
  - unfold live, data_block.
    change (comment_block w :: map fst (heap w))
      with (map fst ((comment_block w, 0) :: heap w)).
    pose proof (fresh_not_live ((comment_block w, 0) :: heap w)) as Hn.
    cbn [existsb] in Hn. apply orb_false_iff in Hn as [_ Hn]. exact Hn.
  - right. exists (data_block w). split; [reflexivity|].
    unfold live; cbn. rewrite Nat.eqb_refl. reflexivity.
Qed.

(** X2. A close that follows a successful open is defined and gives back
    what open took: the heap and the open files are those of before the
    open, [buffer] is null and [bufferLength] 0, while the format fields,
    the scales and the start time stay as open left them. *)
Theorem SampleSourceOpen_then_Close (env : file_env) (s : sample_source_t)
    (filename : string) (w : world) (s' : sample_source_t) (w' : world) :
  SampleSourceOpen env s filename w = Done (EXIT_OK, s', w') ->
  exists s'' w'',
    SampleSourceClose s' w' = Done (s'', w'') /\
    heap w'' = heap w /\
    open_files w'' = open_files w /\
    stderr w'' = stderr w' /\
    buffer s'' = NULL /\ bufferLength s'' = 0 /\
    numChannels s'' = numChannels s' /\ numSamples s'' = numSamples s' /\
    sampleRate s'' = sampleRate s' /\
    dataStartOffset s'' = dataStartOffset s' /\
    scale s'' = scale s' /\ startTime s'' = startTime s'.
Proof.
  intros H.
  apply SampleSourceOpen_ok_inv in H
    as (_ & _ & _ & s1 & l1 & w1 & e2 & _ & -> & ->).
  unfold SampleSourceClose, free, live. cbn.
  rewrite Nat.eqb_refl. cbn.
  eexists _, _. split; [reflexivity|]. cbn.
  unfold data_block. rewrite filter_fresh_blocks_cons.
  repeat split; reflexivity.
Qed.

(** X3. The heap after open, by exit code: unchanged for [EXIT_NOINPUT] and
    [EXIT_DATAERR]; one block more for [EXIT_OK], the data; one block more
    for [EXIT_SOFTWARE] and [EXIT_IOERR], the duplicate of the comment text,
    which was not live before and is not freed on these two paths. *)
Theorem SampleSourceOpen_heap (env : file_env) (s : sample_source_t)
    (filename : string) (w : world)
    (code : exit_code) (s' : sample_source_t) (w' : world) :
  SampleSourceOpen env s filename w = Done (code, s', w') ->
  live (comment_block w) w = false /\
  heap w' =
    match code with
    | EXIT_NOINPUT | EXIT_DATAERR => heap w
    | EXIT_OK => (data_block w, to_size_t (ftell_length env)) :: heap w
    | EXIT_SOFTWARE | EXIT_IOERR =>
        (comment_block w,
         Z.of_nat (String.length (c_str (WavRead_comment env))) + 1) :: heap w
    end.
Proof.
  intros H. split; [apply fresh_not_live|].
  apply SampleSourceOpen_inv in H
    as [(_ & -> & _ & ->)|[(_ & _ & -> & _ & _ & E)
       |(Hv & s1 & l1 & w1 & e2 & _ & _ & H)]];
    [reflexivity|exact E|].
  rewrite read_data_result in H by reflexivity.
  destruct (malloc_ok env); cbn [negb] in H.
  - destruct (fread_count env =? to_size_t (ftell_length env));
      cbn [negb] in H; injection H as <- <- <-; reflexivity.
  - injection H as <- <- <-. reflexivity.
Qed.

(** X4. On a validated file, with [CHANNELS_MAX] at least 9, open returns,
    and its exit code is decided by the allocation and the read alone:
    [EXIT_SOFTWARE] when the allocation fails, else [EXIT_IOERR] when the
    count that [fread] returns differs from the length of the file, else
    [EXIT_OK]; whatever the comment holds. *)
Theorem SampleSourceOpen_exit_code (env : file_env) (s : sample_source_t)
    (filename : string) (w : world) :
  validated env ->
  (9 <= CHANNELS_MAX)%nat ->
  exists s' w', SampleSourceOpen env s filename w = Done (load_exit env, s', w').
Proof.
  intros Hv Hmax.
  destruct (headers_parsed env s filename w Hmax)
    as (s1 & l1 & w1 & b0 & b1 & b2 & Hp & H0 & H1 & H2).
  rewrite (SampleSourceOpen_validated env s filename w Hv), Hp. cbn [bind].
  rewrite (check_headers_warnings l1 w1 b0 b1 b2 H0 H1 H2). cbn [bind].
  apply parse_lines_frame in Hp as (_ & _ & _ & Hfs & Hh).
  cbn [world_at_headers malloc fopen fprintf snd open_files heap] in Hfs, Hh.
  rewrite Hfs, Hh, read_data_result by reflexivity.
  unfold load_exit.
  destruct (malloc_ok env); cbn [negb]; [|eauto].
  destruct (fread_count env =? to_size_t (ftell_length env)); cbn [negb]; eauto.
Qed.

(** X5. Open returns [EXIT_NOINPUT] exactly when the file cannot be opened;
    the source is then the one that was passed in, and the world has only
    gained the two lines printed. *)
Theorem SampleSourceOpen_noinput (env : file_env) (s : sample_source_t)
    (filename : string) (w : world) (s' : sample_source_t) (w' : world) :
  SampleSourceOpen env s filename w = Done (EXIT_NOINPUT, s', w')
  <->
  (fopen_ok env = false /\ s' = s /\
   w' = {| open_files := open_files w; heap := heap w;
           stderr := (stderr w ++ [MsgLoading filename]) ++ [ErrCannotOpen] |}).
Proof.
  split.
  - intros H.
    apply SampleSourceOpen_inv in H
      as [(Hf & _ & -> & ->)|[(_ & _ & E & _)
         |(Hv & s1 & l1 & w1 & e2 & _ & _ & H)]].
    + repeat split. exact Hf.
    + discriminate E.
    + rewrite read_data_result in H by reflexivity.
      destruct (malloc_ok env); cbn [negb] in H; [|discriminate H].
      destruct (fread_count env =? to_size_t (ftell_length env));
        cbn [negb] in H; discriminate H.
  - intros (Hf & -> & ->). unfold SampleSourceOpen. rewrite Hf. reflexivity.
Qed.

(** ** Where open is undefined *)

Lemma parse_line_undefined (line : string) (s : sample_source_t) (l : locals)
    (w : world) (n : nat) :
  length (scale s) = n ->
  length (parsedScale l) = n ->
  parse_line line (s, l, w) = Undefined <->
  exists chan rest, classify line = HScale chan rest /\ (n <= chan)%nat.
Proof.
  intros Hs Hp. unfold parse_line.
  destruct (classify line) as [rest|chan rest|] eqn:Hc.
  - split; [discriminate|]. intros (c & r & E & _). discriminate E.
  - destruct (le_lt_dec n chan) as [Hle|Hlt].
    + rewrite store_out_of_bounds by lia. cbn [bind].
      split; [|reflexivity]. intros _. eauto.
    + rewrite store_in_bounds by lia. cbn [bind].
      split.
      * intros H. exfalso.
        destruct (gt_zero _); [|discriminate H].
        rewrite store_in_bounds in H by lia. discriminate H.
      * intros (c & r & E & Hle). injection E as <- _. lia.
  - split; [discriminate|]. intros (c & r & E & _). discriminate E.
Qed.

Lemma parse_lines_undefined (lines : list string) (n : nat) :
  forall s l w,
    length (scale s) = n ->
    length (parsedScale l) = n ->
    parse_lines lines (s, l, w) = Undefined <->
    exists line chan rest,
      List.In line lines /\ classify line = HScale chan rest /\ (n <= chan)%nat.
Proof.
  induction lines as [|line lines IH]; intros s l w Hs Hp; cbn [parse_lines].
  - split; [discriminate|]. intros (x & c & r & Hin & _). destruct Hin.
  - destruct (parse_line line (s, l, w)) as [[[s1 l1] w1]|] eqn:H1; cbn [bind].
    + pose proof (parse_line_frame _ _ _ H1) as (_ & A & B & _).
      rewrite (IH s1 l1 w1) by congruence.
      split.
      * intros (x & c & r & Hin & Hc & Hle). exists x, c, r. cbn. tauto.
      * intros (x & c & r & [<-|Hin] & Hc & Hle); [|eauto 6].
        exfalso.
        assert (Hu : parse_line line (s, l, w) = Undefined).
        { apply (parse_line_undefined line s l w n Hs Hp). eauto. }
        congruence.
    + split; [|reflexivity]. intros _.
      apply (parse_line_undefined line s l w n Hs Hp) in H1
        as (c & r & Hc & Hle).
      exists line, c, r. cbn. tauto.
Qed.

Lemma check_headers_undefined (l : locals) (w : world) :
  (length (parsedScale l) < 3)%nat -> check_headers l w = Undefined.
Proof.
  intros H. unfold check_headers; cbn [seq check_scales]. unfold load.
  assert (H2 : parsedScale l !! 2%nat = None) by (apply lookup_ge_None_2; lia).
  destruct (parsedScale l !! 0%nat); cbn [bind]; [|reflexivity].
  destruct (parsedScale l !! 1%nat); cbn [bind]; [|reflexivity].
  rewrite H2. reflexivity.
Qed.

(** X6. On a validated file open runs into undefined behaviour exactly when
    [CHANNELS_MAX] is below 3 (line 169 reads [parsedScale[2]]) or one of the
    first 32 lines of the comment is a [Scale-] line whose channel index is
    [CHANNELS_MAX] or more (line 159 stores past the end of [scale]). *)
Theorem SampleSourceOpen_undefined (env : file_env) (s : sample_source_t)
    (filename : string) (w : world) :
  validated env ->
  SampleSourceOpen env s filename w = Undefined <->
  ((CHANNELS_MAX < 3)%nat \/
   exists line chan rest,
     List.In line (commentLines (c_str (WavRead_comment env))) /\
     classify line = HScale chan rest /\
     (CHANNELS_MAX <= chan)%nat).
Proof.
  intros Hv.
  rewrite (SampleSourceOpen_validated env s filename w Hv).
  pose proof (parse_lines_undefined
                (commentLines (c_str (WavRead_comment env))) CHANNELS_MAX
                (source_at_headers env s)
                {| parsedTime := false;
                   parsedScale := replicate CHANNELS_MAX false;
                   local_startTime := 0 |}
                (world_at_headers env filename w)) as Hu.
  unfold parse_headers.
  destruct (parse_lines _ _) as [[[s1 l1] w1]|] eqn:Hp; cbn [bind].
  - assert (Hno : ~ exists line chan rest,
               List.In line (commentLines (c_str (WavRead_comment env))) /\
               classify line = HScale chan rest /\ (CHANNELS_MAX <= chan)%nat).
    { intros Hbad. apply Hu in Hbad; [discriminate Hbad| |].
      - cbn. apply length_replicate.
      - cbn. apply length_replicate. }
    pose proof (parse_lines_frame _ _ _ Hp) as (_ & _ & Hlen & Hfs & Hh).
    cbn in Hlen. rewrite length_replicate in Hlen.
    destruct (le_lt_dec 3 CHANNELS_MAX) as [Hle|Hlt].
    + destruct (lookup_lt_is_Some_2 (parsedScale l1) 0) as [b0 H0]; [lia|].
      destruct (lookup_lt_is_Some_2 (parsedScale l1) 1) as [b1 H1]; [lia|].
      destruct (lookup_lt_is_Some_2 (parsedScale l1) 2) as [b2 H2]; [lia|].
      rewrite (check_headers_warnings l1 w1 b0 b1 b2 H0 H1 H2). cbn [bind].
      cbn [world_at_headers malloc fopen fprintf snd open_files heap] in Hfs, Hh.
      rewrite Hfs, Hh, read_data_result by reflexivity.
      split; [|intros [Hlt|Hbad]; [lia|contradiction]].
      destruct (malloc_ok env); cbn [negb]; [|discriminate].
      destruct (fread_count env =? to_size_t (ftell_length env)); discriminate.
    + rewrite check_headers_undefined by lia. cbn [bind].
      split; [tauto|reflexivity].
  - split; [|reflexivity]. intros _. right.
    apply Hu; [| |reflexivity]; cbn; apply length_replicate.
Qed.

(** ** What the headers of any comment give *)

Lemma time_flag_fold (lines : list string) :
  forall b, fold_left time_flag_step lines b = b || existsb positive_time lines.
Proof.
  induction lines as [|line lines IH]; cbn [fold_left existsb]; intros b.
  - rewrite orb_false_r. reflexivity.
  - rewrite IH. unfold time_flag_step, positive_time.
    destruct (classify line) as [rest| |]; try reflexivity.
    destruct (gt_zero (TimeParse rest)), b; reflexivity.
Qed.

Lemma scale_flag_fold (i : nat) (lines : list string) :
  forall b,
    fold_left (scale_flag_step i) lines b
    = b || existsb (positive_scale i) lines.
Proof.
  induction lines as [|line lines IH]; cbn [fold_left existsb]; intros b.
  - rewrite orb_false_r. reflexivity.
  - rewrite IH. unfold scale_flag_step, positive_scale.
    destruct (classify line) as [|chan rest|]; try reflexivity.
    destruct ((chan =? i)%nat && gt_zero _), b; reflexivity.
Qed.

(** The loop prints no warning. *)
Lemma parse_line_log (line : string) (st st' : parse_state) :
  parse_line line st = Done st' ->
  exists log,
    stderr (snd st') = (stderr (snd st) ++ log)%list /\
    List.filter is_warning log = [].
Proof.
  destruct st as [[s l] w]. unfold parse_line.
  destruct (classify line) as [rest|chan rest|].
  - intros H; injection H as <-. eexists [_]. split; reflexivity.
  - destruct (store (scale s) chan _) as [sc|]; cbn [bind]; [|discriminate].
    destruct (gt_zero _).
    + destruct (store (parsedScale l) chan true) as [ps|]; cbn [bind];
        [|discriminate].
      intros H; injection H as <-. eexists [_]. split; reflexivity.
    + intros H; injection H as <-. eexists [_]. split; reflexivity.
  - intros H; injection H as <-. exists []. cbn. rewrite app_nil_r. tauto.
Qed.

Lemma parse_lines_log (lines : list string) :
  forall st st',
    parse_lines lines st = Done st' ->
    exists log,
      stderr (snd st') = (stderr (snd st) ++ log)%list /\
      List.filter is_warning log = [].
Proof.
  induction lines as [|line lines IH]; cbn [parse_lines]; intros st st' H.
  - injection H as <-. exists []. cbn. rewrite app_nil_r. tauto.
  - destruct (parse_line line st) as [st1|] eqn:H1; cbn [bind] in H;
      [|discriminate H].
    apply parse_line_log in H1 as (log1 & E1 & F1).
    apply IH in H as (log2 & E2 & F2).
    exists (log1 ++ log2)%list. split.
    + rewrite E2, E1, app_assoc. reflexivity.
    + rewrite List.filter_app, F1, F2. reflexivity.
Qed.

Lemma filter_warnings (t b0 b1 b2 : bool) :
  List.filter is_warning (warnings t b0 b1 b2) = warnings t b0 b1 b2.
Proof. destruct t, b0, b1, b2; reflexivity. Qed.

(** X7. What the headers of any comment give, on a validated file with
    [CHANNELS_MAX] at least 9.  Open returns; [startTime] is the value of the
    last [Time] line among the first 32 lines ([0] without one) and
    [scale[i]] that of the last [Scale-(i+1)] line ([1.0] without one),
    whether or not that value is positive.  The warnings printed are, in
    this order, the one for [Time] unless some [Time] line is positive, and
    the ones for [Scale-1], [Scale-2], [Scale-3] unless some line for that
    channel is positive; a positive line silences the warning even when a
    later line has overwritten its value. *)
Theorem SampleSourceOpen_headers (env : file_env) (s : sample_source_t)
    (filename : string) (w : world) :
  validated env ->
  (9 <= CHANNELS_MAX)%nat ->
  let lines := commentLines (c_str (WavRead_comment env)) in
  exists code s' w' printed,
    SampleSourceOpen env s filename w = Done (code, s', w') /\
    startTime s' = last_time lines /\
    (forall i, (i < CHANNELS_MAX)%nat -> scale s' !! i = Some (last_scale i lines)) /\
    stderr w' = (stderr w ++ printed)%list /\
    List.filter is_warning printed =
      warnings (existsb positive_time lines)
               (existsb (positive_scale 0) lines)
               (existsb (positive_scale 1) lines)
               (existsb (positive_scale 2) lines).
Proof.
  intros Hv Hmax lines.
  destruct (headers_parsed env s filename w Hmax)
    as (s1 & l1 & w1 & b0 & b1 & b2 & Hp & H0 & H1 & H2).
  destruct (SampleSourceOpen_after_headers env s filename w s1 l1 w1 b0 b1 b2
              Hv Hp H0 H1 H2)
    as (code & s' & w' & tail & HO & _ & Hsc & Hst & _ & Herr & Htail).
  unfold parse_headers in Hp.
  pose proof (parse_lines_log _ _ _ Hp) as (log & Elog & Flog).
  apply parse_lines_summary in Hp as (Ht & Hf & Hs & Hb & _).
  cbn [parsedTime local_startTime parsedScale] in Ht, Hf, Hb.
  rewrite time_flag_fold in Hf. cbn [orb] in Hf.
  assert (Hflag : forall i b, (i < 3)%nat -> parsedScale l1 !! i = Some b ->
            b = existsb (positive_scale i) lines).
  { intros i b Hi Hl.
    rewrite (Hb i false) in Hl by (apply lookup_replicate_2; lia).
    rewrite scale_flag_fold in Hl. cbn [orb] in Hl.
    injection Hl as <-. reflexivity. }
  apply (Hflag 0%nat) in H0; [|lia].
  apply (Hflag 1%nat) in H1; [|lia].
  apply (Hflag 2%nat) in H2; [|lia].
  subst b0 b1 b2.
  exists code, s', w',
    ([MsgLoading filename] ++ log
     ++ warnings (existsb positive_time lines)
          (existsb (positive_scale 0) lines)
          (existsb (positive_scale 1) lines)
          (existsb (positive_scale 2) lines)
     ++ MsgAllocating (ftell_length env) :: tail)%list.
  split; [exact HO|]. split; [rewrite Hst; exact Ht|]. split; [|split].
  - intros i Hi. rewrite Hsc. apply Hs. array_lookup.
  - rewrite Herr. cbn [snd] in Elog. rewrite Elog, Hf. fold lines.
    cbn [world_at_headers malloc fopen fprintf snd stderr].
    rewrite <- !app_assoc. reflexivity.
  - rewrite !List.filter_app, Flog, filter_warnings.
    destruct Htail as [ -> | [ -> | -> ] ]; cbn; rewrite app_nil_r; reflexivity.
Qed.

(** ** Open and the previous contents of the source *)

Lemma parse_line_source (line : string) (s s' s2 : sample_source_t)
    (l l' : locals) (w w' : world) :
  scale s2 = scale s ->
  parse_line line (s, l, w) = Done (s', l', w') ->
  parse_line line (s2, l, w) = Done (set_scale (scale s') s2, l', w').
Proof.
  intros E. unfold parse_line. rewrite E.
  destruct (classify line) as [rest|chan rest|].
  - intros H; injection H as <- <- <-. rewrite <- E, set_scale_same. reflexivity.
  - destruct (store (scale s) chan _) as [sc|]; cbn [bind]; [|discriminate].
    destruct (gt_zero _).
    + destruct (store (parsedScale l) chan true) as [ps|]; cbn [bind];
        [|discriminate].
      intros H; injection H as <- <- <-. reflexivity.
    + intros H; injection H as <- <- <-. reflexivity.
  - intros H; injection H as <- <- <-. rewrite <- E, set_scale_same. reflexivity.
Qed.

Lemma parse_lines_source (lines : list string) :
  forall s s' s2 l l' w w',
    scale s2 = scale s ->
    parse_lines lines (s, l, w) = Done (s', l', w') ->
    parse_lines lines (s2, l, w) = Done (set_scale (scale s') s2, l', w').
Proof.
  induction lines as [|line lines IH]; cbn [parse_lines];
    intros s s' s2 l l' w w' E H.
  - injection H as <- <- <-. rewrite <- E, set_scale_same. reflexivity.
  - destruct (parse_line line (s, l, w)) as [[[s1 l1] w1]|] eqn:H1;
      cbn [bind] in H; [|discriminate H].
    rewrite (parse_line_source line s s1 s2 l l1 w w1 E H1). cbn [bind].
    rewrite (IH s1 s' (set_scale (scale s1) s2) l1 l' w1 w' eq_refl H).
    reflexivity.
Qed.

(** X8. Open does not read the source it is given: called on another source
    it returns the same exit code and leaves the same world, and when the
    code is [EXIT_OK] the same source, every field of which it has
    overwritten. *)
Theorem SampleSourceOpen_overwrites (env : file_env) (s1 s2 : sample_source_t)
    (filename : string) (w : world)
    (code : exit_code) (s1' : sample_source_t) (w' : world) :
  SampleSourceOpen env s1 filename w = Done (code, s1', w') ->
  exists s2',
    SampleSourceOpen env s2 filename w = Done (code, s2', w') /\
    (code = EXIT_OK -> s2' = s1').
Proof.
  unfold SampleSourceOpen.
  destruct (negb (fopen_ok env)).
  { intros H; injection H as <- <- <-. eexists. split; [reflexivity|discriminate]. }
  cbn [fopen].
  destruct (negb (WavRead_ok env)).
  { intros H; injection H as <- <- <-. eexists. split; [reflexivity|discriminate]. }
  destruct (negb (Wav.bytesPerChannel (WavRead_info env) =? 2)).
  { intros H; injection H as <- <- <-. eexists. split; [reflexivity|discriminate]. }
  destruct ((Wav.chans (WavRead_info env) <? 1)
            || (Z.of_nat CHANNELS_MAX <? Wav.chans (WavRead_info env))).
  { intros H; injection H as <- <- <-. eexists. split; [reflexivity|discriminate]. }
  destruct (Wav.freq (WavRead_info env) <? 1).
  { intros H; injection H as <- <- <-. eexists. split; [reflexivity|discriminate]. }
  destruct (negb (strdup_ok env)); [discriminate|].
  cbn [malloc infoComment set_info].
  unfold parse_headers.
  match goal with
  | |- bind (parse_lines ?ls (?a1, ?l0, ?w0)) _ = _ -> _ =>
      destruct (parse_lines ls (a1, l0, w0)) as [[[sa la] wa]|] eqn:Hp;
        cbn [bind]; [|discriminate];
      pose proof (parse_lines_frame _ _ _ Hp) as (Hsa & _);
      match goal with
      | |- _ -> exists _, bind (parse_lines _ (?a2, _, _)) _ = _ /\ _ =>
          rewrite (parse_lines_source ls a1 sa a2 l0 la w0 wa eq_refl Hp)
      end
  end.
  cbn [bind].
  destruct (check_headers la wa) as [w2|]; cbn [bind]; [|discriminate].
  unfold read_data.
  destruct (negb (malloc_ok env)).
  { intros H; injection H as <- <- <-. eexists. split; [reflexivity|discriminate]. }
  cbn [malloc].
  destruct (negb (fread_count env =? to_size_t (ftell_length env))).
  { destruct (free _ _) as [w3|]; cbn [bind]; [|discriminate].
    intros H; injection H as <- <- <-.
    eexists. split; [reflexivity|discriminate]. }
  destruct (free _ _) as [w3|]; cbn [bind]; [|discriminate].
  intros H; injection H as <- <- <-.
  eexists. split; [reflexivity|]. intros _.
  rewrite Hsa. reflexivity.
Qed.

(** ** Reading, further *)

(** X9. For an open source the frames are laid out in order, [span] bytes
    apart: the pointer for frame [j] is the pointer for frame [i] moved by
    [j - i] times the span that the read of [i] reports, and that span is
    positive, so that distinct frames do not overlap. *)
Theorem SampleSourceRead_stride (s : sample_source_t)
    (i j m1 m2 span1 span2 : Z) :
  open_source s ->
  in_range s i ->
  in_range s j ->
  exists span,
    snd (SampleSourceRead s i m1 (Some span1)) = Some span /\
    0 < span /\
    fst (SampleSourceRead s j m2 (Some span2))
    = ptr_add (fst (SampleSourceRead s i m1 (Some span1))) ((j - i) * span).
Proof.
  intros ([b Hb] & Hc & Hd & Hl) (Hi & Hfi) (Hj & Hfj).
  exists (2 * numChannels s).
  unfold SampleSourceRead, ptr_add, to_size_t. cbn [fst snd base ofs].
  rewrite (Z.mod_small i) by nia.
  rewrite (Z.mod_small j) by nia.
  rewrite (Z.mod_small (numChannels s)) by nia.
  rewrite (Z.mod_small (2 * i)) by nia.
  rewrite (Z.mod_small (2 * j)) by nia.
  rewrite (Z.mod_small (2 * i * numChannels s)) by nia.
  rewrite (Z.mod_small (2 * j * numChannels s)) by nia.
  rewrite (Z.mod_small (2 * numChannels s)) by nia.
  split; [reflexivity|]. split; [lia|].
  f_equal. ring.
Qed.

(** X10. [SampleSourceRead] checks neither [numSamples] nor
    [bufferLength]: when the samples run to the end of the buffer, an index
    of [numSamples] or more (small enough for the offset not to wrap) gives a
    pointer into the same block at or beyond the end of the buffer. *)
Theorem SampleSourceRead_past_the_end (s : sample_source_t)
    (index minCount : Z) (span : option Z) :
  open_source s ->
  0 <= numSamples s <= index ->
  2 * index * numChannels s < 2 ^ size_bits ->
  bufferLength s <= dataStartOffset s + 2 * numSamples s * numChannels s ->
  base (fst (SampleSourceRead s index minCount span)) = base (buffer s) /\
  bufferLength s <= ofs (fst (SampleSourceRead s index minCount span)).
Proof.
  intros ([b Hb] & Hc & Hd & Hl) Hi Hw Hfit.
  unfold SampleSourceRead, ptr_add, to_size_t. cbn [fst base ofs].
  rewrite Hb. cbn [base ofs].
  assert (E : ((2 * (index mod 2 ^ size_bits)) mod 2 ^ size_bits
               * (numChannels s mod 2 ^ size_bits)) mod 2 ^ size_bits
              = 2 * index * numChannels s).
  { rewrite <- Z.mul_mod by lia.
    replace (2 * (index mod 2 ^ size_bits) * numChannels s)
      with (index mod 2 ^ size_bits * (2 * numChannels s)) by ring.
    rewrite Z.mul_mod_idemp_l by lia.
    replace (index * (2 * numChannels s)) with (2 * index * numChannels s)
      by ring.
    apply Z.mod_small. nia. }
  rewrite E. split; [reflexivity|nia].
Qed.

(** X11. The byte offset is computed in [size_t]: two indices that differ by
    half the range of [size_t] give the same pointer and the same span. *)
Theorem SampleSourceRead_wraps (s : sample_source_t)
    (index minCount : Z) (span : option Z) :
  0 < size_bits ->
  SampleSourceRead s (index + 2 ^ (size_bits - 1)) minCount span
  = SampleSourceRead s index minCount span.
Proof.
  intros Hn. unfold SampleSourceRead, to_size_t.
  assert (Hp : 0 < 2 ^ size_bits) by (apply Z.pow_pos_nonneg; lia).
  assert (E : (2 * ((index + 2 ^ (size_bits - 1)) mod 2 ^ size_bits))
                mod 2 ^ size_bits
              = (2 * (index mod 2 ^ size_bits)) mod 2 ^ size_bits).
  { rewrite !Z.mul_mod_idemp_r by lia.
    replace (2 * (index + 2 ^ (size_bits - 1)))
      with (2 * index + 1 * 2 ^ size_bits).
    - apply Z.mod_add. lia.
    - replace size_bits with (Z.succ (size_bits - 1)) at 1 by lia.
      rewrite Z.pow_succ_r by lia. ring. }
  rewrite E. reflexivity.
Qed.

(** ** Closing, further *)

Lemma live_other_after_free (b b' : nat) (h : list (nat * Z)) :
  b' <> b ->
  existsb (fun blk => (fst blk =? b')%nat)
    (List.filter (fun blk => negb (fst blk =? b)%nat) h)
  = existsb (fun blk => (fst blk =? b')%nat) h.
Proof.
  intros Hne. induction h as [|y h IH]; simpl; [reflexivity|].
  destruct (Nat.eqb_spec (fst y) b) as [E|E]; simpl.
  - destruct (Nat.eqb_spec (fst y) b'); [congruence|exact IH].
  - rewrite IH. reflexivity.
Qed.

(** X12. Close gives up the buffer and nothing else: when it is defined the
    source differs from the one passed in by a null [buffer] and a zero
    [bufferLength] only, open files and the diagnostic stream are as before,
    and every other block is live exactly if it was. *)
Theorem SampleSourceClose_frame (s s' : sample_source_t) (w w' : world) :
  SampleSourceClose s w = Done (s', w') ->
  s' = set_buffer NULL 0 s /\
  open_files w' = open_files w /\
  stderr w' = stderr w /\
  (forall b, base (buffer s) <> Some b -> live b w' = live b w).
Proof.
  unfold SampleSourceClose, is_null, free.
  destruct (buffer s) as [[b|] o] eqn:Hb; cbn [base ofs].
  - destruct ((o =? 0) && live b w); cbn [bind]; [|discriminate].
    intros H; injection H as <- <-. cbn.
    repeat split.
    intros b' Hne. unfold live; cbn.
    apply live_other_after_free. congruence.
  - destruct (Z.eqb_spec o 0) as [->|Hne].
    + intros H; injection H as <- <-.
      repeat split.
    + cbn [bind]. discriminate.
Qed.

(** X13. Closing is idempotent only through the same source: after a close
    that released a block, closing a copy of the source as it was before, the
    copy still holding the pointer, is a second [free] of that block. *)
Theorem SampleSourceClose_stale_copy (s : sample_source_t) (w : world) (b : nat) :
  buffer s = {| base := Some b; ofs := 0 |} ->
  live b w = true ->
  exists s' w',
    SampleSourceClose s w = Done (s', w') /\
    SampleSourceClose s w' = Undefined.
Proof.
  intros Hb Hl. unfold SampleSourceClose, is_null, free.
  rewrite Hb. cbn [base ofs Z.eqb andb]. rewrite Hl. cbn [bind].
  eexists _, _. split; [reflexivity|].
  unfold live; cbn [heap]. rewrite live_after_free. reflexivity.
Qed.

(** ** Recognising the header lines *)

Lemma starts_with_inv (lit s : string) :
  starts_with lit s = true -> s = (lit ++ advance (String.length lit) s)%string.
Proof.
  revert s. induction lit as [|a lit IH]; intros s; cbn; [reflexivity|].
  destruct s as [|b s]; [discriminate|].
  intros H. apply andb_true_iff in H as [Hab Hs].
  apply Ascii.eqb_eq in Hab as ->. f_equal. apply IH. exact Hs.
Qed.

(** X14. The lines that lines 149 and 155 recognise: a [Time] line is
    exactly a line that begins with [Time:], the rest being what follows the
    colon; a [Scale] line is exactly [Scale-], one digit from 1 to 9 and a
    colon, the channel being the digit minus one and the rest what follows
    the colon.  Nothing before the keyword is skipped, and [Scale-0:] or a
    number of two digits is not a [Scale] line. *)
Theorem classify_lines (line : string) :
  (forall rest,
     classify line = HTime rest <-> line = ("Time:" ++ rest)%string) /\
  (forall chan rest,
     classify line = HScale chan rest <->
     exists d,
       line = ("Scale-" ++ String d (String ":" rest))%string /\
       is_digit_1_9 d = true /\
       chan = (nat_of_ascii d - 49)%nat).
Proof.
  split.
  - intros rest. split.
    + unfold classify.
      destruct (starts_with "Time:" line) eqn:E.
      * intros H; injection H as <-. apply (starts_with_inv "Time:"). exact E.
      * destruct (_ && _); discriminate.
    + intros ->. reflexivity.
  - intros chan rest. split.
    + unfold classify.
      destruct (starts_with "Time:" line); [discriminate|].
      destruct (starts_with "Scale-" line) eqn:E; cbn [andb]; [|discriminate].
      destruct (is_digit_1_9 (char_at line 6)) eqn:Hd; cbn [andb]; [|discriminate].
      destruct (Ascii.eqb (char_at line 7) ":") eqn:Hc; [|discriminate].
      intros H; injection H as <- <-.
      apply (starts_with_inv "Scale-") in E.
      remember (advance (String.length "Scale-") line) as t eqn:Ht.
      clear Ht. subst line.
      destruct t as [|d t]; [discriminate Hd|].
      destruct t as [|c t]; [discriminate Hc|].
      cbn in Hc. apply Ascii.eqb_eq in Hc as ->.
      exists d. cbn. repeat split. exact Hd.
    + intros (d & -> & Hd & ->). unfold classify. cbn.
      change (char_at ("Scale-" ++ String d (String ":" rest)) 6) with d.
      rewrite Hd. reflexivity.
Qed.

(** ** Cutting the comment into lines *)

Lemma fields_not_nil (d : ascii) (s : string) : fields d s <> [].
Proof.
  destruct s as [|c s]; cbn; [discriminate|].
  destruct (Ascii.eqb c d); [discriminate|].
  destruct (fields d s); discriminate.
Qed.

Lemma fields_append (d : ascii) (a b : string) :
  fields d (a ++ String d b)%string = (fields d a ++ fields d b)%list.
Proof.
  induction a as [|c a IH]; cbn.
  - rewrite Ascii.eqb_refl. reflexivity.
  - destruct (Ascii.eqb c d); rewrite IH; [reflexivity|].
    pose proof (fields_not_nil d a) as Hn.
    destruct (fields d a) as [|t ts]; [contradiction|reflexivity].
Qed.

Lemma fields_whole (d : ascii) (a : string) :
  has_char d a = false -> fields d a = [a].
Proof.
  induction a as [|c a IH]; cbn; [reflexivity|].
  intros H. apply orb_false_iff in H as [Hc Ha].
  rewrite Hc, (IH Ha). reflexivity.
Qed.

(** X15. The lines of the comment (line 141): a newline separates, so the
    lines of [a], a newline and [b] are those of [a] followed by those of
    [b]; a text without newline is one line, or none when it is empty (blank
    lines vanish); and of all the lines the first 32 are kept. *)
Theorem commentLines_cut :
  (forall a b,
     strtok_all (a ++ String LF b)%string
     = (strtok_all a ++ strtok_all b)%list) /\
  (forall a,
     has_char LF a = false ->
     strtok_all a = if nonempty a then [a] else []) /\
  (forall c,
     (length (commentLines c) <= 32)%nat /\
     commentLines c = firstn 32 (strtok_all c) /\
     exists dropped, strtok_all c = (commentLines c ++ dropped)%list).
Proof.
  split; [|split].
  - intros a b. unfold strtok_all.
    rewrite fields_append, List.filter_app. reflexivity.
  - intros a H. unfold strtok_all. rewrite (fields_whole LF a H). reflexivity.
  - intros c. unfold commentLines, MAX_FIELDS. split; [|split].
    + apply firstn_le_length.
    + reflexivity.
    + exists (skipn 32 (strtok_all c)). symmetry. apply firstn_skipn.
Qed.

(** ** What a failed open leaves in the source *)

(** X16. The source after a failed open.  After [EXIT_DATAERR] the scales
    are all [1.0] and the four text buffers hold what [WavRead] wrote, while
    the format fields, the start time and the buffer are those of before the
    call.  After [EXIT_SOFTWARE] or [EXIT_IOERR] the format fields are
    already those of the file, while [buffer] and [bufferLength] are still
    those of before the call. *)
Theorem SampleSourceOpen_failed_source (env : file_env) (s : sample_source_t)
    (filename : string) (w : world)
    (code : exit_code) (s' : sample_source_t) (w' : world) :
  SampleSourceOpen env s filename w = Done (code, s', w') ->
  (code = EXIT_DATAERR ->
   scale s' = replicate CHANNELS_MAX 1%float /\
   infoComment s' = WavRead_comment env /\
   numChannels s' = numChannels s /\ numSamples s' = numSamples s /\
   sampleRate s' = sampleRate s /\ dataStartOffset s' = dataStartOffset s /\
   startTime s' = startTime s /\
   buffer s' = buffer s /\ bufferLength s' = bufferLength s) /\
  (code = EXIT_SOFTWARE \/ code = EXIT_IOERR ->
   infoComment s' = WavRead_comment env /\
   numChannels s' = Wav.chans (WavRead_info env) /\
   numSamples s' = Wav.numSamples (WavRead_info env) /\
   sampleRate s' = Wav.freq (WavRead_info env) /\
   dataStartOffset s' = Wav.offset (WavRead_info env) /\
   buffer s' = buffer s /\ bufferLength s' = bufferLength s).
Proof.
  intros H.
  apply SampleSourceOpen_inv in H
    as [(_ & -> & _ & _)|[(_ & _ & -> & -> & _ & _)
       |(Hv & s1 & l1 & w1 & e2 & Hp & _ & H)]].
  - split; [discriminate|]. intros [E|E]; discriminate E.
  - split; [|intros [E|E]; discriminate E].
    intros _. cbn. repeat split.
  - apply parse_lines_frame in Hp as (Hs1 & _).
    rewrite read_data_result in H by reflexivity.
    destruct (malloc_ok env); cbn [negb] in H.
    + destruct (fread_count env =? to_size_t (ftell_length env));
        cbn [negb] in H; injection H as <- <- <-.
      * split; [discriminate|]. intros [E|E]; discriminate E.
      * split; [discriminate|]. intros _. rewrite Hs1. cbn. repeat split.
    + injection H as <- <- <-.
      split; [discriminate|]. intros _. rewrite Hs1. cbn. repeat split.
Qed.

End SampleSource.

(** * The development on sample inputs

    [CHANNELS_MAX = 16], a 64-bit [size_t], and [atof_decimal] for both
    [atof] and [TimeParse] (a time given as a number of seconds). *)

Lemma recording_validated (nchans : Z) (comment : string) (can_allocate : bool) :
  1 <= nchans <= 16 -> validated 16 (recording nchans comment can_allocate).
Proof. intros H. unfold validated; cbn. repeat split; try reflexivity; lia. Qed.

Lemma SampleSourceRead_offset_witness :
  open_source 16 64 loaded_source /\
  in_range loaded_source 10 /\
  let '(p, span) := SampleSourceRead 64 loaded_source 10 5 (Some 0) in
  base p = base (buffer loaded_source) /\
  ofs p = dataStartOffset loaded_source + 2 * 10 * numChannels loaded_source /\
  0 <= ofs p /\
  ofs p + 2 * numChannels loaded_source <= bufferLength loaded_source /\
  span = Some (2 * numChannels loaded_source).
Proof.
  assert (Ho : open_source 16 64 loaded_source).
  { unfold open_source; cbn. repeat split; try lia; eauto. }
  assert (Hi : in_range loaded_source 10).
  { unfold in_range; cbn. lia. }
  split; [exact Ho|]. split; [exact Hi|].
  exact (SampleSourceRead_offset 16 64 loaded_source 10 5 0 Ho Hi).
Defined.

Lemma SampleSourceOpen_format_validation_witness :
  fopen_ok (recording_bytes 3) = true /\
  WavRead_ok (recording_bytes 3) = true /\
  exists s' w',
    SampleSourceOpen 16 64 atof_decimal atof_decimal (recording_bytes 3)
      (blank_source 16) "rec.wav" empty_world
    = Done (EXIT_DATAERR, s', w').
Proof.
  split; [reflexivity|]. split; [reflexivity|].
  apply (proj2 (SampleSourceOpen_format_validation 16 64 atof_decimal
                  atof_decimal (recording_bytes 3) (blank_source 16)
                  "rec.wav" empty_world eq_refl eq_refl)).
  left. cbn. lia.
Defined.

Lemma SampleSourceOpen_three_headers_witness :
  exists code s' w',
    SampleSourceOpen 16 64 atof_decimal atof_decimal
      (recording 3 block_of_three_headers true)
      (blank_source 16) "rec.wav" empty_world
    = Done (code, s', w') /\
    loaded code /\
    startTime s' = atof_decimal " 2020-01-01T00:00:00Z" /\
    scale s' !! 0%nat = Some 0.5%float /\
    scale s' !! 1%nat = Some 0.25%float /\
    (forall i, (2 <= i < 16)%nat -> scale s' !! i = Some 1%float).
Proof.
  apply (SampleSourceOpen_three_headers 16 64 atof_decimal atof_decimal
           (recording 3 block_of_three_headers true)).
  - apply recording_validated. lia.
  - lia.
  - reflexivity.
  - vm_compute. reflexivity.
  - vm_compute. reflexivity.
Defined.

Lemma SampleSourceOpen_scale_5_witness :
  exists code s' w' tail,
    SampleSourceOpen 16 64 atof_decimal atof_decimal
      (recording 5 "Scale-5: 100" true)
      (blank_source 16) "rec.wav" empty_world
    = Done (code, s', w') /\
    loaded code /\
    scale s' !! 4%nat = Some (100 / 32768)%float /\
    stderr w' =
      (stderr empty_world ++
       [MsgLoading "rec.wav";
        MsgScale 5 100%float 4 (100 / 32768)%float;
        WarnTime; WarnScale 1; WarnScale 2; WarnScale 3;
        MsgAllocating (ftell_length (recording 5 "Scale-5: 100" true))]
       ++ tail)%list /\
    (forall k, ~ List.In (WarnScale k) tail).
Proof.
  apply (SampleSourceOpen_scale_5 16 64 atof_decimal atof_decimal
           (recording 5 "Scale-5: 100" true)).
  - apply recording_validated. lia.
  - lia.
  - reflexivity.
  - vm_compute. reflexivity.
Defined.

Lemma SampleSourceOpen_no_positive_time_witness :
  exists code s' w',
    SampleSourceOpen 16 64 atof_decimal atof_decimal
      (recording 3 "Time: -1" true)
      (blank_source 16) "rec.wav" empty_world
    = Done (code, s', w') /\
    loaded code /\
    List.In WarnTime (stderr w') /\
    startTime s' = (-1)%float.
Proof.
  destruct (SampleSourceOpen_no_positive_time 16 64 atof_decimal atof_decimal
              (recording 3 "Time: -1" true) (blank_source 16) "rec.wav"
              empty_world)
    as (code & s' & w' & HO & Hl & Hw & Hst).
  - apply recording_validated. lia.
  - lia.
  - intros line rest Hin.
    change (commentLines (c_str (WavRead_comment (recording 3 "Time: -1" true))))
      with ["Time: -1"] in Hin.
    destruct Hin as [<-|Hin]; [|destruct Hin].
    intros Hc. injection Hc as <-. vm_compute. reflexivity.
  - exists code, s', w'. rewrite Hst.
    repeat split; try assumption; vm_compute; reflexivity.
Defined.

Lemma SampleSourceOpen_no_positive_scale_witness :
  exists code s' w',
    SampleSourceOpen 16 64 atof_decimal atof_decimal
      (recording 3 "Scale-1: 0" true)
      (blank_source 16) "rec.wav" empty_world
    = Done (code, s', w') /\
    loaded code /\
    List.In (WarnScale 1) (stderr w') /\
    scale s' !! 0%nat = Some 0%float.
Proof.
  destruct (SampleSourceOpen_no_positive_scale 16 64 atof_decimal atof_decimal
              (recording 3 "Scale-1: 0" true) (blank_source 16) "rec.wav"
              empty_world 0)
    as (code & s' & w' & HO & Hl & Hw & Hsc).
  - apply recording_validated. lia.
  - lia.
  - lia.
  - intros line rest Hin.
    change (commentLines (c_str (WavRead_comment (recording 3 "Scale-1: 0" true))))
      with ["Scale-1: 0"] in Hin.
    destruct Hin as [<-|Hin]; [|destruct Hin].
    intros Hc. injection Hc as <-. vm_compute. reflexivity.
  - exists code, s', w'. rewrite Hsc.
    repeat split; try assumption; vm_compute; reflexivity.
Defined.

Lemma SampleSourceClose_idempotent_witness :
  owns loaded_world loaded_source /\
  exists s' w',
    SampleSourceClose loaded_source loaded_world = Done (s', w') /\
    bufferLength s' = 0 /\
    buffer s' = NULL /\
    (forall b, base (buffer loaded_source) = Some b -> live b w' = false) /\
    SampleSourceClose s' w' = Done (s', w').
Proof.
  assert (Ho : owns loaded_world loaded_source).
  { right. exists 7%nat. split; reflexivity. }
  split; [exact Ho|].
  exact (SampleSourceClose_idempotent loaded_source loaded_world Ho).
Defined.

Lemma SampleSourceOpen_failure_releases_witness :
  exists s' w',
    SampleSourceOpen 16 64 atof_decimal atof_decimal
      (recording_cut_short 2 block_of_three_headers)
      loaded_source "rec.wav" loaded_world
    = Done (EXIT_IOERR, s', w') /\
    EXIT_IOERR <> EXIT_OK /\
    (open_files w' = open_files loaded_world /\
     live (data_block loaded_world) w' = false /\
     live 7 w' = true /\
     buffer s' = {| base := Some 7%nat; ofs := 0 |} /\
     bufferLength s' = 6044) /\
    (numChannels s' = 2 /\ infoComment s' = block_of_three_headers) /\
    startTime s' = atof_decimal " 2020-01-01T00:00:00Z" /\
    scale s' !! 0%nat = Some 0.5%float /\
    scale s' !! 2%nat = Some 1%float.
Proof.
  assert (Hne : EXIT_IOERR <> EXIT_OK) by discriminate.
  eexists _, _. split; [vm_compute; reflexivity|]. split; [exact Hne|].
  edestruct (SampleSourceOpen_failure_releases 16 64 atof_decimal atof_decimal
               (recording_cut_short 2 block_of_three_headers)
               loaded_source "rec.wav" loaded_world EXIT_IOERR)
    as ((Hf & Hd & Hsub & Hb & Hl) & _ & _ & H3);
    [vm_compute; reflexivity|exact Hne|].
  destruct (H3 (or_intror eq_refl))
    as ((_ & _ & Hc & _) & (Hn & _) & Ht & Hs).
  split; [|split; [|split; [|split]]].
  - split; [exact Hf|]. split; [exact Hd|]. split; [reflexivity|].
    split; [exact Hb|exact Hl].
  - split; [exact Hn|exact Hc].
  - exact Ht.
  - rewrite (Hs 0%nat) by lia. vm_compute. reflexivity.
  - rewrite (Hs 2%nat) by lia. vm_compute. reflexivity.
Defined.

(** C8, as the specification words it, fails on a file without channels:
    open returns [EXIT_DATAERR] after it has overwritten the text buffers of
    the source. *)
Lemma SampleSourceOpen_fails_cleanly_counterexample :
  ~ fails_cleanly 16 64 atof_decimal atof_decimal
      (recording 0 "Scale-1: 16384" true) (blank_source 16) "rec.wav"
      empty_world.
Proof.
  intros H.
  edestruct (H EXIT_DATAERR) as (_ & _ & Hs);
    [vm_compute; reflexivity|discriminate|].
  apply (f_equal infoComment) in Hs. discriminate Hs.
Qed.

(** On an allocation failure the duplicate of the comment text stays live. *)
Lemma SampleSourceOpen_comment_duplicate_not_freed :
  exists s' w',
    SampleSourceOpen 16 64 atof_decimal atof_decimal (recording 3 "" false)
      (blank_source 16) "rec.wav" empty_world
    = Done (EXIT_SOFTWARE, s', w') /\
    open_files w' = [] /\
    heap w' = [(comment_block empty_world, 1)].
Proof. eexists _, _. split; [vm_compute; reflexivity|]. split; reflexivity. Qed.

(** * The further properties on sample inputs *)

Lemma SampleSourceOpen_ok_state_witness :
  exists s' w',
    SampleSourceOpen 16 64 atof_decimal atof_decimal
      (recording 3 block_of_three_headers true)
      (blank_source 16) "rec.wav" empty_world
    = Done (EXIT_OK, s', w') /\
    numChannels s' = 3 /\ numSamples s' = 1000 /\
    bufferLength s' = 6044 /\ length (scale s') = 16%nat /\
    open_files w' = [] /\ owns w' s'.
Proof.
  eexists _, _. split; [vm_compute; reflexivity|].
  edestruct (SampleSourceOpen_ok_state 16 64 atof_decimal atof_decimal
               (recording 3 block_of_three_headers true)
               (blank_source 16) "rec.wav" empty_world)
    as (_ & (Hc & Hn & _) & _ & Hlen & (_ & Hbl & _) & (Hf & _ & Ho));
    [vm_compute; reflexivity|].
  repeat split; assumption.
Defined.

Lemma SampleSourceOpen_then_Close_witness :
  exists s' w' s'' w'',
    SampleSourceOpen 16 64 atof_decimal atof_decimal
      (recording 3 block_of_three_headers true)
      (blank_source 16) "rec.wav" empty_world
    = Done (EXIT_OK, s', w') /\
    SampleSourceClose s' w' = Done (s'', w'') /\
    heap w'' = [] /\ open_files w'' = [] /\
    buffer s'' = NULL /\ numSamples s'' = 1000.
Proof.
  eexists _, _.
  edestruct (SampleSourceOpen_then_Close 16 64 atof_decimal atof_decimal
               (recording 3 block_of_three_headers true)
               (blank_source 16) "rec.wav" empty_world)
    as (s'' & w'' & Hc & Hh & Hf & _ & Hb & _ & _ & Hn & _);
    [vm_compute; reflexivity|].
  exists s'', w''. split; [vm_compute; reflexivity|].
  repeat split; assumption.
Defined.

Lemma SampleSourceOpen_heap_witness :
  exists s' w',
    SampleSourceOpen 16 64 atof_decimal atof_decimal (recording 3 "" false)
      (blank_source 16) "rec.wav" empty_world
    = Done (EXIT_SOFTWARE, s', w') /\
    live (comment_block empty_world) empty_world = false /\
    heap w' = [(comment_block empty_world, 1)].
Proof.
  eexists _, _. split; [vm_compute; reflexivity|].
  eapply (SampleSourceOpen_heap 16 64 atof_decimal atof_decimal
            (recording 3 "" false) (blank_source 16) "rec.wav" empty_world
            EXIT_SOFTWARE).
  vm_compute. reflexivity.
Defined.

Lemma SampleSourceOpen_exit_code_witness :
  exists s' w',
    SampleSourceOpen 16 64 atof_decimal atof_decimal
      (recording 3 "Scale-9: 7" false)
      (blank_source 16) "rec.wav" empty_world
    = Done (load_exit 64 (recording 3 "Scale-9: 7" false), s', w').
Proof.
  apply SampleSourceOpen_exit_code.
  - apply recording_validated. lia.
  - lia.
Defined.

Lemma SampleSourceOpen_undefined_witness :
  validated 8 (recording 3 "Scale-9: 7" true) /\
  SampleSourceOpen 8 64 atof_decimal atof_decimal
    (recording 3 "Scale-9: 7" true) (blank_source 8) "rec.wav" empty_world
  = Undefined.
Proof.
  assert (Hv : validated 8 (recording 3 "Scale-9: 7" true)).
  { unfold validated; cbn. repeat split; try reflexivity; lia. }
  split; [exact Hv|].
  apply (proj2 (SampleSourceOpen_undefined 8 64 atof_decimal atof_decimal
                  (recording 3 "Scale-9: 7" true) (blank_source 8) "rec.wav"
                  empty_world Hv)).
  right. exists "Scale-9: 7", 8%nat, " 7".
  split; [left; reflexivity|]. split; [reflexivity|lia].
Defined.

Lemma SampleSourceOpen_headers_witness :
  exists code s' w' printed,
    SampleSourceOpen 16 64 atof_decimal atof_decimal
      (recording 3 "Time: 5" true)
      (blank_source 16) "rec.wav" empty_world
    = Done (code, s', w') /\
    startTime s' = 5%float /\
    stderr w' = printed /\
    List.filter is_warning printed = [WarnScale 1; WarnScale 2; WarnScale 3].
Proof.
  destruct (SampleSourceOpen_headers 16 64 atof_decimal atof_decimal
              (recording 3 "Time: 5" true) (blank_source 16) "rec.wav"
              empty_world)
    as (code & s' & w' & printed & HO & Ht & _ & He & Hw).
  - apply recording_validated. lia.
  - lia.
  - exists code, s', w', printed.
    split; [exact HO|]. split; [rewrite Ht; vm_compute; reflexivity|].
    split; [exact He|]. rewrite Hw. vm_compute. reflexivity.
Defined.

Lemma SampleSourceOpen_overwrites_witness :
  exists s1' s2' w',
    SampleSourceOpen 16 64 atof_decimal atof_decimal
      (recording 3 block_of_three_headers true)
      (blank_source 16) "rec.wav" empty_world
    = Done (EXIT_OK, s1', w') /\
    SampleSourceOpen 16 64 atof_decimal atof_decimal
      (recording 3 block_of_three_headers true)
      loaded_source "rec.wav" empty_world
    = Done (EXIT_OK, s2', w') /\
    s2' = s1'.
Proof.
  eexists _.
  edestruct (SampleSourceOpen_overwrites 16 64 atof_decimal atof_decimal
               (recording 3 block_of_three_headers true)
               (blank_source 16) loaded_source "rec.wav" empty_world EXIT_OK)
    as (s2' & H2 & E); [vm_compute; reflexivity|].
  exists s2'. eexists. split; [vm_compute; reflexivity|].
  split; [exact H2|exact (E eq_refl)].
Defined.

Lemma loaded_source_open : open_source 16 64 loaded_source.
Proof. unfold open_source; cbn. repeat split; try lia; eauto. Qed.

Lemma SampleSourceRead_stride_witness :
  exists span,
    snd (SampleSourceRead 64 loaded_source 10 1 (Some 0)) = Some span /\
    0 < span /\
    fst (SampleSourceRead 64 loaded_source 12 1 (Some 0))
    = ptr_add (fst (SampleSourceRead 64 loaded_source 10 1 (Some 0)))
        ((12 - 10) * span).
Proof.
  apply (SampleSourceRead_stride 16 64 loaded_source 10 12 1 1 0 0).
  - exact loaded_source_open.
  - unfold in_range; cbn. lia.
  - unfold in_range; cbn. lia.
Defined.

Lemma SampleSourceRead_past_the_end_witness :
  base (fst (SampleSourceRead 64 loaded_source 1000 1 None))
  = base (buffer loaded_source) /\
  bufferLength loaded_source
  <= ofs (fst (SampleSourceRead 64 loaded_source 1000 1 None)).
Proof.
  apply (SampleSourceRead_past_the_end 16 64 loaded_source 1000 1 None).
  - exact loaded_source_open.
  - cbn. lia.
  - cbn. lia.
  - cbn. lia.
Defined.

Lemma SampleSourceRead_wraps_witness :
  SampleSourceRead 32 loaded_source (5 + 2 ^ (32 - 1)) 1 None
  = SampleSourceRead 32 loaded_source 5 1 None.
Proof. apply SampleSourceRead_wraps. lia. Defined.

Lemma SampleSourceClose_frame_witness :
  exists s' w',
    SampleSourceClose loaded_source loaded_world = Done (s', w') /\
    s' = set_buffer NULL 0 loaded_source /\
    open_files w' = open_files loaded_world /\
    stderr w' = stderr loaded_world /\
    (forall b, base (buffer loaded_source) <> Some b ->
       live b w' = live b loaded_world).
Proof.
  eexists _, _. split; [vm_compute; reflexivity|].
  apply (SampleSourceClose_frame loaded_source _ loaded_world).
  vm_compute. reflexivity.
Defined.

Lemma SampleSourceClose_stale_copy_witness :
  exists s' w',
    SampleSourceClose loaded_source loaded_world = Done (s', w') /\
    SampleSourceClose loaded_source w' = Undefined.
Proof.
  apply (SampleSourceClose_stale_copy loaded_source loaded_world 7);
    reflexivity.
Defined.

Lemma SampleSourceOpen_failed_source_witness :
  exists s' w',
    SampleSourceOpen 16 64 atof_decimal atof_decimal
      (recording 3 "Scale-1: 16384" false)
      loaded_source "rec.wav" empty_world
    = Done (EXIT_SOFTWARE, s', w') /\
    infoComment s' = "Scale-1: 16384" /\
    numChannels s' = 3 /\
    buffer s' = buffer loaded_source /\
    bufferLength s' = bufferLength loaded_source.
Proof.
  eexists _, _. split; [vm_compute; reflexivity|].
  edestruct (SampleSourceOpen_failed_source 16 64 atof_decimal atof_decimal
               (recording 3 "Scale-1: 16384" false)
               loaded_source "rec.wav" empty_world EXIT_SOFTWARE)
    as (_ & H); [vm_compute; reflexivity|].
  destruct (H (or_introl eq_refl)) as (Hc & Hn & _ & _ & _ & Hb & Hl).
  repeat split; assumption.
Defined.
